(** * eccodes_grib.dataset: schema inference over GRIB message metadata

    A shallow embedding of [eccodes_grib/dataset.py]: the key catalogs, the
    three sniffers ([sniff_significant_keys], [sniff_variable_attrs],
    [sniff_raw_coordinates]), the [cached] decorator, and the [Variable] and
    [Dataset] classes, followed by the properties proved about them.

    Python values are modelled by [pyval]; exceptions by [exn] and the
    [result] type; the logger by a list of records threaded through the
    computations that can log; insertion-ordered [dict]s by [pydict];
    read-only mappings (messages, indexes, the grid-type catalog) by [gmap]. *)

From Stdlib Require Import ZArith String List.
From stdpp Require Import base option list strings pretty gmap.

Local Open Scope string_scope.
Local Open Scope list_scope.
Local Open Scope nat_scope.

(* ===================================================================== *)
(** ** Python values, exceptions, logging *)
(* ===================================================================== *)

(** Scalar metadata values: [None], integers, floats (carried as their
    binary64 bit pattern, never inspected by this module) and strings. *)
Inductive pyval : Type :=
| VNone
| VInt (n : Z)
| VFloat (bits : Z)
| VStr (s : string).

#[global] Instance pyval_eq_dec : EqDecision pyval.
Proof. solve_decision. Defined.

(** [x is not None] *)
Definition is_not_None (v : pyval) : bool :=
  match v with VNone => false | _ => true end.

(** The two [NotImplementedError]s raised by the module, with the data
    their messages are formatted from. *)
Inductive not_implemented : Type :=
| MultipleValues (key : string) (value : list pyval)
    (* "GRIB has multiple values for key %r: %r" % (key, value) *)
| OnlyOneVariable.
    (* "GRIB must have only one variable" *)

Inductive exn : Type :=
| KeyError (key : string)
| IndexError
| StopIteration
| TypeError
| NotImplementedError (what : not_implemented).

Inductive result (A : Type) : Type :=
| Ok (a : A)
| Raise (e : exn).
Arguments Ok {A} a.
Arguments Raise {A} e.

#[global] Instance result_ret : MRet result := λ A a, Ok a.
#[global] Instance result_bind : MBind result :=
  λ A B f r, match r with Ok a => f a | Raise e => Raise e end.

Definition is_Ok {A} (r : result A) : Prop := ∃ a, r = Ok a.

(** A [for x in xs: acc = body(acc, x)] loop whose body may raise. *)
Fixpoint for_each {A B} (body : A → B → result A) (acc : A) (xs : list B)
  : result A :=
  match xs with
  | [] => Ok acc
  | x :: xs' => acc' ← body acc x; for_each body acc' xs'
  end.

(** One call of [log.warning(fmt, arg)]. *)
Inductive log_record : Type :=
| LogWarning (fmt : string) (arg : pyval).

(** Computations that may log and may raise: the log so far is threaded
    through; an exception keeps the records emitted before it. *)
Definition M (A : Type) : Type := list log_record → result A * list log_record.

#[global] Instance M_ret : MRet M := λ A a log, (Ok a, log).
#[global] Instance M_bind : MBind M :=
  λ A B f m log,
    match m log with
    | (Ok a, log') => f a log'
    | (Raise e, log') => (Raise e, log')
    end.

Definition lift {A} (r : result A) : M A := λ log, (r, log).
Definition log_warning (fmt : string) (arg : pyval) : M unit :=
  λ log, (Ok tt, log ++ [LogWarning fmt arg]).

Fixpoint for_eachM {A B} (body : A → B → M A) (acc : A) (xs : list B) : M A :=
  match xs with
  | [] => mret acc
  | x :: xs' => acc' ← body acc x; for_eachM body acc' xs'
  end.

(* ===================================================================== *)
(** ** Python dictionaries *)
(* ===================================================================== *)

(** A [dict] keeps its keys in insertion order; assigning to a key already
    present replaces the value in place. *)
Section PyDict.
Context {K V : Type} `{EqDecision K}.

Definition pydict : Type := list (K * V).

Fixpoint dict_get (d : pydict) (k : K) : option V :=
  match d with
  | [] => None
  | (k', v) :: d' => if decide (k = k') then Some v else dict_get d' k
  end.

(** [d[k] = v] *)
Fixpoint dict_set (d : pydict) (k : K) (v : V) : pydict :=
  match d with
  | [] => [(k, v)]
  | (k', v') :: d' =>
      if decide (k = k') then (k, v) :: d' else (k', v') :: dict_set d' k v
  end.

Definition dict_keys (d : pydict) : list K := d.*1.
Definition dict_values (d : pydict) : list V := d.*2.
Definition dict_items (d : pydict) : list (K * V) := d.
(** [d.copy()] *)
Definition dict_copy (d : pydict) : pydict := d.
End PyDict.
Arguments pydict : clear implicits.

(* ===================================================================== *)
(** ** Key catalogs *)
(* ===================================================================== *)

Definition PARAMETER_KEYS : list string :=
  ["centre"; "paramId"; "shortName"; "units"; "name"].
Definition TIME_KEYS : list string :=
  ["dataDate"; "endStep"; "startStep"; "stepRange"; "stepUnits"; "dataTime";
   "validityDate"; "validityTime"; "stepType"].
Definition GEOGRAPHY_KEYS : list string := ["gridType"].
Definition VERTICAL_KEYS : list string :=
  ["bottomLevel"; "level"; "pv"; "topLevel"; "typeOfLevel"].

Definition NAMESPACE_KEYS : list string :=
  PARAMETER_KEYS ++ TIME_KEYS ++ GEOGRAPHY_KEYS ++ VERTICAL_KEYS.

Definition GRID_TYPE_MAP : gmap string (list string) :=
  {[ "regular_ll" :=
       ["Ni"; "Nj"; "iDirectionIncrementInDegrees"; "iScansNegatively";
        "jDirectionIncrementInDegrees"; "jPointsAreConsecutive";
        "jScansPositively";
        "latitudeOfFirstGridPointInDegrees"; "latitudeOfLastGridPointInDegrees";
        "longitudeOfFirstGridPointInDegrees";
        "longitudeOfLastGridPointInDegrees"];
     "regular_gg" :=
       ["Ni"; "Nj"; "iDirectionIncrementInDegrees"; "iScansNegatively";
        "N"; "jPointsAreConsecutive"; "jScansPositively";
        "latitudeOfFirstGridPointInDegrees"; "latitudeOfLastGridPointInDegrees";
        "longitudeOfFirstGridPointInDegrees";
        "longitudeOfLastGridPointInDegrees"] ]}.

Definition DATA_KEYS : list string := ["numberOfDataPoints"; "packingType"].
Definition ENSEMBLE_KEYS : list string := ["number"].

Definition EDITION_INDEPENDENT_KEYS : list string :=
  NAMESPACE_KEYS ++ DATA_KEYS ++ ENSEMBLE_KEYS.

Definition VARIABLE_ATTRS_KEYS : list string :=
  ["centre"; "paramId"; "shortName"; "units"; "name";
   "stepUnits"; "stepType";
   "typeOfLevel";
   "gridType";
   "numberOfDataPoints"].

Definition RAW_COORDINATES_KEYS : list string :=
  ["number"; "dataDate"; "dataTime"; "endStep"; "topLevel"].

(* ===================================================================== *)
(** ** Mappings read by the sniffers *)
(* ===================================================================== *)

(** A message as the sniffers see it, [T.Mapping[str, T.Any]]: metadata key
    to scalar value; a key may be bound to [None]. *)
Abbreviation Message := (gmap string pyval) (only parsing).

(** [message.get(key, default)] *)
Definition message_get (message : Message) (key : string) (default : pyval)
  : pyval :=
  match message !! key with Some v => v | None => default end.

(** [message[key]] *)
Definition message_getitem (message : Message) (key : string) : result pyval :=
  match message !! key with Some v => Ok v | None => Raise (KeyError key) end.

(** An index as the sniffers see it, [T.Mapping[str, T.Any]]: tracked key
    to the sequence of values the index holds for it. *)
Abbreviation IndexMapping := (gmap string (list pyval)) (only parsing).

(** [significant_index[key]] *)
Definition index_getitem (significant_index : IndexMapping) (key : string)
  : result (list pyval) :=
  match significant_index !! key with
  | Some value => Ok value
  | None => Raise (KeyError key)
  end.

(** [significant_index.get(key, default)] *)
Definition index_get (significant_index : IndexMapping) (key : string)
    (default : list pyval) : list pyval :=
  match significant_index !! key with Some value => value | None => default end.

(** [value[0]] on a sequence *)
Definition getitem0 {A} (value : list A) : result A :=
  match value with x :: _ => Ok x | [] => Raise IndexError end.

(** The grid-type catalog, [T.Mapping[str, T.Iterable[str]]], looked up with
    a scalar that need not be a string: only a string can equal a key. *)
Abbreviation GridTypeMap := (gmap string (list string)) (only parsing).

Definition grid_type_map_get (grid_type_map : GridTypeMap) (grid_type : pyval)
  : option (list string) :=
  match grid_type with
  | VStr s => grid_type_map !! s
  | _ => None
  end.

(* ===================================================================== *)
(** ** The sniffers *)
(* ===================================================================== *)

Definition sniff_significant_keys (message : Message) (ei_keys : list string)
    (grid_type_map : GridTypeMap) : M (list string) :=
  let grid_type := message_get message "gridType" VNone in
  grid_type_keys ←
    match grid_type_map_get grid_type_map grid_type with
    | Some keys => mret keys
    | None =>
        _ ← log_warning "unknown gridType %r" grid_type;
        mret []
    end;
  let all_significant_keys := ei_keys ++ grid_type_keys in
  mret (filter (λ key, is_not_None (message_get message key VNone) = true)
               all_significant_keys).

(** The body of the [for] loop of [sniff_variable_attrs]: one key, on the
    [attrs] built so far. *)
Definition sniff_variable_attrs_step (significant_index : IndexMapping)
    (attrs : pydict string pyval) (key : string)
  : result (pydict string pyval) :=
  value ← index_getitem significant_index key;
  if decide (1 < length value)
  then Raise (NotImplementedError (MultipleValues key value))
  else v ← getitem0 value; Ok (dict_set attrs key v).

Definition sniff_variable_attrs (significant_index : IndexMapping)
    (attrs_keys : list string) (grid_type_map : GridTypeMap)
  : result (pydict string pyval) :=
  grid_type ← getitem0 (index_get significant_index "gridType" [VNone]);
  for_each (sniff_variable_attrs_step significant_index) []
    (attrs_keys ++ default [] (grid_type_map_get grid_type_map grid_type)).

Definition sniff_raw_coordinates (significant_index : IndexMapping)
    (raw_coordinates_keys : list string) (grid_type_map : GridTypeMap)
  : result (pydict string (list pyval)) :=
  for_each
    (λ raw_coordinates key,
       value ← index_getitem significant_index key;
       Ok (dict_set raw_coordinates key value))
    []
    raw_coordinates_keys.

(* ===================================================================== *)
(** ** The [messages] collaborators *)
(* ===================================================================== *)

(** [messages.Stream(path, mode)] *)
Module Stream.
Record t : Type := mk { path : string; mode : string }.
End Stream.

(** Modelled from the spec: [messages.Index] is not part of the sources.
    A metadata index maps each tracked key to the ordered, deduplicated
    sequence of distinct values observed across a message collection, and
    offers a selection by key=value constraints over that collection.  As a
    [Mapping] its length is its number of keys. *)
Record Index : Type := mkIndex {
  index_values : gmap string (list pyval);
  index_messages : list (gmap string pyval)
}.

(** [len(index)] *)
Definition Index_len (index : Index) : nat := size (index_values index).

(** Modelled from the spec: [index.select] with keyword constraints is not part of the
    sources.  It yields the messages matching every key=value constraint, in
    index order. *)
Definition Index_select (index : Index) (query : list (string * pyval))
  : list (gmap string pyval) :=
  filter (λ message : gmap string pyval,
            Forall (λ kv : string * pyval, message !! kv.1 = Some kv.2) query)
         (index_messages index).

(** [next(iterator)] *)
Definition next {A} (iterator : list A) : result A :=
  match iterator with x :: _ => Ok x | [] => Raise StopIteration end.

(** Modelled from the spec: the values an index holds for one key are the
    distinct non-null values the messages carry for it, in order of first
    appearance. *)
Definition observed_values (key : string) (msgs : list (gmap string pyval))
  : list pyval :=
  reverse (remove_dups (reverse
    (omap (λ message : gmap string pyval,
             match message !! key with
             | Some VNone | None => None
             | Some v => Some v
             end) msgs))).

Definition build_index (msgs : list (gmap string pyval)) (keys : list string)
  : Index :=
  {| index_values :=
       list_to_map ((λ key, (key, observed_values key msgs)) <$> keys);
     index_messages := msgs |}.

(* ===================================================================== *)
(** ** Arrays *)
(* ===================================================================== *)

Inductive np_dtype : Type := float32.

(** Array elements: [np.nan], or a number given by its bit pattern. *)
Inductive np_elem : Type :=
| NaN
| Num (bits : Z).

Record ndarray : Type := mk_ndarray {
  nd_shape : list nat;
  nd_dtype : np_dtype;
  nd_data : list np_elem
}.

(** [np.full(shape, fill_value, dtype)]: one element per index tuple. *)
Definition np_full (shape : list nat) (fill_value : np_elem) (dtype : np_dtype)
  : ndarray :=
  {| nd_shape := shape;
     nd_dtype := dtype;
     nd_data := replicate (foldr Nat.mul 1 shape) fill_value |}.

(* ===================================================================== *)
(** ** [cached] *)
(* ===================================================================== *)

(** [cached(method)]: [cache_get] reads the attribute ['_' + method.__name__]
    of the object ([None] when [hasattr] is false) and [cache_set] is the
    [setattr].  A method that raises leaves the object as it was. *)
Definition cached {S A : Type} (cache_get : S → option A)
    (cache_set : S → A → S) (method : S → M A) : S → M (A * S) :=
  λ self,
    match cache_get self with
    | Some a => mret (a, self)
    | None => a ← method self; mret (a, cache_set self a)
    end.

(* ===================================================================== *)
(** ** [Variable] and [Dataset] *)
(* ===================================================================== *)

Module Var.
(** The attributes of a [Variable] object once [__attrs_post_init__] has
    run; [_build_array] is the attribute [cached] adds. *)
Record t : Type := mk {
  paramId : pyval;
  stream : Stream.t;
  name : pyval;
  paramId_index : Index;
  significant_keys : list string;
  significant_index : Index;
  attrs : pydict string pyval;
  coordinates : pydict string (list pyval);
  dimensions : list string;
  ndim : nat;
  shape : list nat;
  dtype : np_dtype;
  scale : bool;
  mask : bool;
  size : pyval;
  _build_array : option ndarray
}.

Definition set__build_array (self : t) (a : ndarray) : t :=
  mk (paramId self) (stream self) (name self) (paramId_index self)
     (significant_keys self) (significant_index self) (attrs self)
     (coordinates self) (dimensions self) (ndim self) (shape self)
     (dtype self) (scale self) (mask self) (size self) (Some a).
End Var.

Module Dataset.
Record t : Type := mk {
  path : string;
  mode : string;
  stream : Stream.t;
  _variables : option (pydict pyval Var.t)
}.

Definition set__variables (self : t) (vs : pydict pyval Var.t) : t :=
  mk (path self) (mode self) (stream self) (Some vs).
End Dataset.

(** What a call may pass by keyword. *)
Inductive arg : Type :=
| ArgVal (v : pyval)
| ArgStream (s : Stream.t)
| ArgDataset (d : Dataset.t).

(** The keyword arguments of a call [Variable(...)]: those naming an
    attribute of the class ([paramId], [stream], [name]) and every other
    keyword passed. *)
Record Variable_kwargs : Type := {
  kw_paramId : option pyval;
  kw_stream : option Stream.t;
  kw_name : option pyval;
  kw_other : list (string * arg)
}.

(** [str(v)] of a scalar, given the text of floats. *)
Definition py_str (float_str : Z → string) (v : pyval) : string :=
  match v with
  | VNone => "None"
  | VInt n => pretty n
  | VFloat bits => float_str bits
  | VStr s => s
  end.

Section Files.
(** The two constructors of indexes are not part of the sources and are
    taken as given: [messages.Index(path, index_keys)] and
    [stream.index(keys)]. *)
Variable Index_new : string → list string → Index.
Variable Stream_index : Stream.t → list string → Index.
(** [str] of a float, from its bit pattern. *)
Variable float_str : Z → string.

(** [Variable.__attrs_post_init__], on the attributes bound by the
    generated [__init__]. *)
Definition Variable_post_init (paramId : pyval) (stream : Stream.t)
    (name : pyval) : M Var.t :=
  let paramId_index := Stream_index stream ["paramId"] in
  if decide (1 < Index_len paramId_index)
  then lift (Raise (NotImplementedError OnlyOneVariable))
  else
    leader ← lift (next (Index_select paramId_index [("paramId", paramId)]));
    let name :=
      if decide (name = VNone)
      then message_get leader "shortName"
             (VStr ("paramId==" +:+ py_str float_str paramId))
      else name in
    significant_keys ←
      sniff_significant_keys leader EDITION_INDEPENDENT_KEYS GRID_TYPE_MAP;
    let significant_index := Index_new (Stream.path stream) significant_keys in
    attrs ← lift (sniff_variable_attrs (index_values significant_index)
                    VARIABLE_ATTRS_KEYS GRID_TYPE_MAP);
    coordinates ← lift (sniff_raw_coordinates (index_values significant_index)
                          RAW_COORDINATES_KEYS GRID_TYPE_MAP);
    let dimensions :=
      (filter (λ item : string * list pyval, 1 < length item.2)
              (dict_items coordinates)).*1 in
    let ndim := length dimensions in
    let shape :=
      length <$> filter (λ coord : list pyval, 1 < length coord)
                        (dict_values coordinates) in
    size ← lift (message_getitem leader "numberOfDataPoints");
    mret (Var.mk paramId stream name paramId_index significant_keys
            significant_index attrs coordinates dimensions ndim shape
            float32 true false size None).

(** A call of [Variable] with keyword arguments: the [__init__] generated by [attr.attrs()] for
    the attributes [paramId], [stream] and [name=None] accepts no other
    keyword and requires the first two; it then runs
    [__attrs_post_init__]. *)
Definition Variable_new (kwargs : Variable_kwargs) : M Var.t :=
  match kw_other kwargs with
  | _ :: _ => lift (Raise TypeError)
  | [] =>
      match kw_paramId kwargs, kw_stream kwargs with
      | Some paramId, Some stream =>
          Variable_post_init paramId stream (default VNone (kw_name kwargs))
      | _, _ => lift (Raise TypeError)
      end
  end.

(** [Variable.ncattrs] *)
Definition ncattrs (self : Var.t) : pydict string pyval :=
  dict_copy (Var.attrs self).

(** [Variable.build_array], under [@cached] *)
Definition build_array : Var.t → M (ndarray * Var.t) :=
  cached Var._build_array Var.set__build_array
    (λ self, mret (np_full (Var.shape self) NaN (Var.dtype self))).

(** [Dataset.__init__] with [__attrs_post_init__] *)
Definition Dataset_new (path : string) (mode : string) : Dataset.t :=
  Dataset.mk path mode (Stream.mk path mode) None.

(** The body of [Dataset.variables]. *)
Definition Dataset_variables_body (self : Dataset.t)
  : M (pydict pyval Var.t) :=
  let index := Stream_index (Dataset.stream self) ["paramId"] in
  param_ids ← lift (index_getitem (index_values index) "paramId");
  for_eachM
    (λ variables param_id,
       variable ← Variable_new
                    {| kw_paramId := Some param_id;
                       kw_stream := None;
                       kw_name := None;
                       kw_other := [("dataset", ArgDataset self)] |};
       mret (dict_set variables (Var.name variable) variable))
    []
    param_ids.

(** [Dataset.variables], under [@property] and [@cached] *)
Definition Dataset_variables
  : Dataset.t → M (pydict pyval Var.t * Dataset.t) :=
  cached Dataset._variables Dataset.set__variables Dataset_variables_body.
End Files.

(** Modelled from the spec: [messages.Index(path, index_keys)] is not part
    of the sources.  Given the messages the decoder reads at each path, it
    indexes the given keys over all messages of the file. *)
Definition file_Index_new (grib_file : string → list (gmap string pyval))
    (path : string) (index_keys : list string) : Index :=
  build_index (grib_file path) index_keys.

(** Modelled from the spec: [Stream.index(keys)] is not part of the
    sources.  It builds an index over the given keys by scanning all
    messages of the stream. *)
Definition file_Stream_index (grib_file : string → list (gmap string pyval))
    (stream : Stream.t) (keys : list string) : Index :=
  file_Index_new grib_file (Stream.path stream) keys.

(* ===================================================================== *)
(** ** Vocabulary of the properties *)
(* ===================================================================== *)

(** The value of [key] in [message] is present and non-null. *)
Definition present_non_null (message : gmap string pyval) (key : string) : Prop :=
  ∃ v, message !! key = Some v ∧ v ≠ VNone.

#[global] Instance present_non_null_dec message key :
  Decision (present_non_null message key).
Proof.
  unfold present_non_null.
  destruct (message !! key) as [v|] eqn:E.
  - destruct (decide (v = VNone)) as [->|Hv].
    + right. intros (w & Hw & Hne). congruence.
    + left. eauto.
  - right. intros (w & Hw & _). congruence.
Defined.

(** Number of distinct entries of a value sequence. *)
Definition n_distinct (value : list pyval) : nat := length (remove_dups value).

(** The grid type the attribute sniffer determines from an index: the first
    value held for [gridType], [None] when the index has no entry for it. *)
Definition index_grid_type (significant_index : gmap string (list pyval))
  : pyval :=
  match significant_index !! "gridType" with
  | Some (grid_type :: _) => grid_type
  | _ => VNone
  end.

(** The keys the attribute sniffer tracks: the attribute-key list followed
    by the keys the catalog gives for the index's grid type. *)
Definition tracked_keys (significant_index : gmap string (list pyval))
    (attrs_keys : list string) (grid_type_map : gmap string (list string))
  : list string :=
  attrs_keys ++
  default [] (grid_type_map_get grid_type_map (index_grid_type significant_index)).

(** Every entry of the index is a sequence of distinct values. *)
Definition distinct_values (significant_index : gmap string (list pyval)) : Prop :=
  map_Forall (λ _ value, NoDup value) significant_index.

(** No entry of the index is an empty sequence. *)
Definition nonempty_values (significant_index : gmap string (list pyval)) : Prop :=
  map_Forall (λ _ value, value ≠ []) significant_index.

(** The index has an entry for each of the keys. *)
Definition index_over (significant_index : gmap string (list pyval))
    (keys : list string) : Prop :=
  Forall (λ key, is_Some (significant_index !! key)) keys.

(** Some key among [keys] has two or more distinct values in the index. *)
Definition multi_valued (significant_index : gmap string (list pyval))
    (keys : list string) : Prop :=
  ∃ key value, key ∈ keys ∧ significant_index !! key = Some value
               ∧ 2 ≤ n_distinct value.

(** What the attribute sniffer owes on an index: the inconsistent-attribute
    error exactly when some tracked key has two or more distinct values, no
    mapping in that case, and otherwise a mapping whose keys are exactly the
    tracked keys, each bound to the sole value of its sequence. *)
Definition attrs_contract (significant_index : gmap string (list pyval))
    (attrs_keys : list string) (grid_type_map : gmap string (list string))
  : Prop :=
  let tracked := tracked_keys significant_index attrs_keys grid_type_map in
  let outcome := sniff_variable_attrs significant_index attrs_keys grid_type_map in
  ((∃ key value, outcome = Raise (NotImplementedError (MultipleValues key value)))
   ↔ multi_valued significant_index tracked)
  ∧ (multi_valued significant_index tracked → ¬ is_Ok outcome)
  ∧ (¬ multi_valued significant_index tracked →
     ∃ attrs, outcome = Ok attrs
       ∧ (∀ key, key ∈ dict_keys attrs ↔ key ∈ tracked)
       ∧ (∀ key, key ∈ tracked →
            ∃ v, significant_index !! key = Some [v]
                 ∧ dict_get attrs key = Some v)).

(** The sequence a coordinates dictionary holds for a key. *)
Definition coordinate (coordinates : pydict string (list pyval)) (key : string)
  : list pyval :=
  default [] (dict_get coordinates key).

(** A computation that raises exception [e] from no log. *)
Definition never_raises {A} (e : exn) (m : M A) : Prop :=
  ∀ log, (m log).1 ≠ Raise e.

(** The array a [Variable] owes its callers. *)
Definition full_array (self : Var.t) : ndarray :=
  np_full (Var.shape self) NaN (Var.dtype self).

(** [build_array] keeps this relation to the object as constructed: same
    shape and type, and a cache that is unset or holds the full array. *)
Definition cache_consistent (self0 self : Var.t) : Prop :=
  Var.shape self = Var.shape self0
  ∧ Var.dtype self = Var.dtype self0
  ∧ (Var._build_array self = None
     ∨ Var._build_array self = Some (full_array self0)).

(** [n] successive calls of [build_array] on an object, returning the
    arrays in call order and the object after the last call. *)
Fixpoint build_array_calls (n : nat) (self : Var.t) : M (list ndarray * Var.t) :=
  match n with
  | 0 => mret ([], self)
  | S n' =>
      r ← build_array self;
      rs ← build_array_calls n' r.2;
      mret (r.1 :: rs.1, rs.2)
  end.

(* ===================================================================== *)
(** ** Sample message collections *)
(* ===================================================================== *)

(** A message on a regular latitude/longitude grid, for a parameter id and
    a forecast step. *)
Definition sample_message (paramId endStep : Z) : gmap string pyval :=
  list_to_map
    [("centre", VStr "ecmf"); ("paramId", VInt paramId); ("shortName", VStr "t");
     ("units", VStr "K"); ("name", VStr "Temperature");
     ("dataDate", VInt 20200101); ("dataTime", VInt 0);
     ("endStep", VInt endStep); ("stepUnits", VInt 1);
     ("stepType", VStr "instant");
     ("gridType", VStr "regular_ll");
     ("topLevel", VInt 0); ("typeOfLevel", VStr "surface");
     ("numberOfDataPoints", VInt 4); ("number", VInt 1);
     ("Ni", VInt 2); ("Nj", VInt 2);
     ("iDirectionIncrementInDegrees", VInt 1); ("iScansNegatively", VInt 0);
     ("jDirectionIncrementInDegrees", VInt 1); ("jPointsAreConsecutive", VInt 0);
     ("jScansPositively", VInt 0);
     ("latitudeOfFirstGridPointInDegrees", VInt 1);
     ("latitudeOfLastGridPointInDegrees", VInt 0);
     ("longitudeOfFirstGridPointInDegrees", VInt 0);
     ("longitudeOfLastGridPointInDegrees", VInt 1)].

(** Every path holds three messages of parameter 1, at steps 0, 6 and 12. *)
Definition one_group_file (path : string) : list (gmap string pyval) :=
  [sample_message 1 0; sample_message 1 6; sample_message 1 12].

(** Every path holds one message of parameter 1 and one of parameter 2. *)
Definition two_groups_file (path : string) : list (gmap string pyval) :=
  [sample_message 1 0; sample_message 2 0].

(** No path holds any message. *)
Definition empty_file (path : string) : list (gmap string pyval) := [].

(** Floats do not occur in the samples. *)
Definition sample_float_str (bits : Z) : string := "nan".

Definition sample_stream : Stream.t := Stream.mk "sample.grib" "r".

(** The call [Variable(paramId=1, stream=sample_stream)]. *)
Definition sample_kwargs : Variable_kwargs :=
  {| kw_paramId := Some (VInt 1);
     kw_stream := Some sample_stream;
     kw_name := None;
     kw_other := [] |}.

(** The object the call [Variable(paramId=1, stream=sample_stream)] makes
    over [one_group_file]. *)
Definition sample_Variable : Var.t :=
  Eval vm_compute in
    match Variable_new (file_Index_new one_group_file)
            (file_Stream_index one_group_file) sample_float_str
            sample_kwargs [] with
    | (Ok self, _) => self
    | (Raise _, _) =>
        Var.mk VNone sample_stream VNone (mkIndex ∅ []) [] (mkIndex ∅ []) []
          [] [] 0 [] float32 true false VNone None
    end.

(* ===================================================================== *)
(** ** Indexing a Variable *)
(* ===================================================================== *)

Section Getitem.
(** Indexing of an array by an index expression is numpy's and is taken
    as given: [a[item]]. *)
Context {Item Elem : Type}.
Variable ndarray_getitem : ndarray → Item → result Elem.

(** [Variable.__getitem__]: the object comes back with whatever
    [build_array] did to it, also when the indexing raises. *)
Definition Variable_getitem (self : Var.t) (item : Item)
    (log : list log_record) : result Elem * Var.t * list log_record :=
  match build_array self log with
  | (Ok (a, self'), log') => (ndarray_getitem a item, self', log')
  | (Raise e, log') => (Raise e, self, log')
  end.
End Getitem.

(* ===================================================================== *)
(** ** Further vocabulary *)
(* ===================================================================== *)

(** The keys of a list in order of first occurrence: the key order of a
    dictionary filled by assigning to the keys in turn. *)
Definition first_occurrences (keys : list string) : list string :=
  foldl (λ seen key, if decide (key ∈ seen) then seen else seen ++ [key])
        [] keys.

(** The exception the attribute sniffer raises at a key, if any: the
    entry of the key must be a sequence of exactly one value. *)
Definition attrs_offence (significant_index : gmap string (list pyval))
    (key : string) : option exn :=
  match significant_index !! key with
  | None => Some (KeyError key)
  | Some [] => Some IndexError
  | Some [_] => None
  | Some value => Some (NotImplementedError (MultipleValues key value))
  end.

(** The offence of the first offending key of a list. *)
Definition first_offence (significant_index : gmap string (list pyval))
    (keys : list string) : option exn :=
  head (omap (attrs_offence significant_index) keys).

(** The first key of a list for which the index has no entry. *)
Definition first_missing (significant_index : gmap string (list pyval))
    (keys : list string) : option string :=
  head (filter (λ key, significant_index !! key = None) keys).

(** The exceptions of the sniffers over an index: a [KeyError], an
    [IndexError] or the inconsistent-attribute error. *)
Definition sniffer_exn (e : exn) : Prop :=
  (∃ key, e = KeyError key) ∨ e = IndexError
  ∨ ∃ key value, e = NotImplementedError (MultipleValues key value).

(** The value sequence of the index for [gridType] is empty: the index has
    no entry for the key, or binds it to the empty sequence. *)
Definition gridType_sequence_empty
    (significant_index : gmap string (list pyval)) : Prop :=
  index_get significant_index "gridType" [] = [].

(** What the attribute sniffer owes on an index without grid type: the
    grid-type determination step does not fail, no grid-type key is
    tracked, and the outcome is that of the loop over the attribute keys
    alone. *)
Definition no_grid_type_contract
    (significant_index : gmap string (list pyval)) (attrs_keys : list string)
    (grid_type_map : gmap string (list string)) : Prop :=
  is_Ok (getitem0 (index_get significant_index "gridType" [VNone]))
  ∧ sniff_variable_attrs significant_index attrs_keys grid_type_map =
    for_each (sniff_variable_attrs_step significant_index) [] attrs_keys.

(** The call of [Variable] is well formed: no keyword but the attributes',
    and [paramId] and [stream] given. *)
Definition well_formed_call (kwargs : Variable_kwargs) : Prop :=
  kw_other kwargs = [] ∧ is_Some (kw_paramId kwargs)
  ∧ is_Some (kw_stream kwargs).

(* ===================================================================== *)
(** ** Loops *)
(* ===================================================================== *)

Lemma for_each_cons {A B} (body : A → B → result A) (acc : A) (x : B)
    (xs : list B) :
  for_each body acc (x :: xs) =
  match body acc x with
  | Ok acc' => for_each body acc' xs
  | Raise e => Raise e
  end.
Proof. reflexivity. Qed.

(* ===================================================================== *)
(** ** Dictionary lemmas *)
(* ===================================================================== *)

Section PyDictFacts.
Context {K V : Type} `{EqDecision K}.
Implicit Types (d : pydict K V) (k : K) (v : V).

Lemma dict_get_set d k v k' :
  dict_get (dict_set d k v) k' =
  if decide (k' = k) then Some v else dict_get d k'.
Proof.
  induction d as [|[k0 v0] d IH]; simpl.
  - repeat case_decide; congruence.
  - destruct (decide (k = k0)) as [->|Hne]; simpl.
    + repeat case_decide; congruence.
    + rewrite IH. repeat case_decide; congruence.
Qed.

Lemma dict_get_set_eq d k v : dict_get (dict_set d k v) k = Some v.
Proof. rewrite dict_get_set. by case_decide. Qed.

Lemma dict_get_set_ne d k v k' :
  k' ≠ k → dict_get (dict_set d k v) k' = dict_get d k'.
Proof. intros. rewrite dict_get_set. by case_decide. Qed.

Lemma dict_keys_set d k v k' :
  k' ∈ dict_keys (dict_set d k v) ↔ k' = k ∨ k' ∈ dict_keys d.
Proof.
  unfold dict_keys. induction d as [|[k0 v0] d IH]; simpl.
  - rewrite list_elem_of_singleton, elem_of_nil. tauto.
  - destruct (decide (k = k0)) as [->|Hne]; simpl.
    + rewrite !elem_of_cons. tauto.
    + rewrite !elem_of_cons, IH. tauto.
Qed.

Lemma dict_set_fresh d k v :
  k ∉ dict_keys d → dict_set d k v = d ++ [(k, v)].
Proof.
  unfold dict_keys. induction d as [|[k0 v0] d IH]; simpl; [done|].
  intros Hk. apply not_elem_of_cons in Hk as [Hne Hk].
  case_decide; [done|]. by rewrite IH.
Qed.

Lemma dict_get_Some_keys d k v : dict_get d k = Some v → k ∈ dict_keys d.
Proof.
  unfold dict_keys. induction d as [|[k0 v0] d IH]; simpl; [done|].
  case_decide; subst; [intros; by left|]. intros. right. by apply IH.
Qed.

Lemma dict_get_app_fresh d k v k' :
  k ∉ dict_keys d → dict_get (d ++ [(k, v)]) k' =
                    if decide (k' = k) then Some v else dict_get d k'.
Proof. intros Hk. rewrite <- dict_set_fresh by done. apply dict_get_set. Qed.
End PyDictFacts.

(* ===================================================================== *)
(** ** The significance sniffer *)
(* ===================================================================== *)

Lemma is_not_None_present (message : gmap string pyval) (key : string) :
  is_not_None (message_get message key VNone) = true ↔
  present_non_null message key.
Proof.
  unfold message_get, present_non_null.
  destruct (message !! key) as [v|]; simpl.
  - split.
    + intros Hv. exists v. split; [done|]. by intros ->.
    + intros (w & [= <-] & Hne). by destruct v.
  - split; [done|]. by intros (w & ? & _).
Qed.

Lemma filter_is_not_None (message : gmap string pyval) (keys : list string) :
  filter (λ key, is_not_None (message_get message key VNone) = true) keys =
  filter (present_non_null message) keys.
Proof.
  apply list_filter_iff. intros key. apply is_not_None_present.
Qed.

Lemma sniff_significant_keys_cases (message : gmap string pyval)
    (ei_keys : list string) (grid_type_map : gmap string (list string))
    (log : list log_record) :
  sniff_significant_keys message ei_keys grid_type_map log =
  match grid_type_map_get grid_type_map (message_get message "gridType" VNone) with
  | Some grid_type_keys =>
      (Ok (filter (present_non_null message) (ei_keys ++ grid_type_keys)), log)
  | None =>
      (Ok (filter (present_non_null message) ei_keys),
       log ++ [LogWarning "unknown gridType %r"
                          (message_get message "gridType" VNone)])
  end.
Proof.
  unfold sniff_significant_keys.
  destruct (grid_type_map_get _ _) as [keys|];
    unfold mbind, M_bind, mret, M_ret, log_warning; simpl;
    rewrite filter_is_not_None; [done|].
  by rewrite app_nil_r.
Qed.

(** C4. For a message whose [gridType] value is a key of the grid-type
    catalog, the significance sniffer returns the edition-independent keys
    followed by that grid type's keys, each list filtered to the keys whose
    value in the message is present and non-null; the two filtered lists are
    simply concatenated, so a key of both lists that is present occurs once
    for each list. Nothing is logged and nothing is raised. *)
Theorem sniff_significant_keys_known_grid_type
    (message : gmap string pyval) (ei_keys : list string)
    (grid_type_map : gmap string (list string))
    (grid_type : string) (grid_type_keys : list string)
    (log : list log_record) :
  message !! "gridType" = Some (VStr grid_type) →
  grid_type_map !! grid_type = Some grid_type_keys →
  sniff_significant_keys message ei_keys grid_type_map log =
    (Ok (filter (present_non_null message) ei_keys ++
         filter (present_non_null message) grid_type_keys), log)
  ∧ filter (present_non_null message) ei_keys ++
    filter (present_non_null message) grid_type_keys =
    filter (present_non_null message) (ei_keys ++ grid_type_keys).
Proof.
  intros Hg Hcat. split; [|by rewrite filter_app].
  rewrite sniff_significant_keys_cases.
  unfold message_get at 1. rewrite Hg. simpl. rewrite Hcat.
  by rewrite filter_app.
Qed.

Lemma sniff_significant_keys_known_grid_type_witness :
  let message : gmap string pyval :=
    {[ "gridType" := VStr "regular_ll"; "Ni" := VInt 2; "Nj" := VNone ]} in
  let catalog : gmap string (list string) :=
    {[ "regular_ll" := ["Ni"; "Nj"; "gridType"] ]} in
  message !! "gridType" = Some (VStr "regular_ll")
  ∧ catalog !! "regular_ll" = Some ["Ni"; "Nj"; "gridType"]
  ∧ sniff_significant_keys message ["paramId"; "gridType"; "Ni"] catalog [] =
      (Ok ["gridType"; "Ni"; "Ni"; "gridType"], []).
Proof.
  intros message catalog. split; [reflexivity|]. split; [reflexivity|].
  destruct (sniff_significant_keys_known_grid_type
              message ["paramId"; "gridType"; "Ni"] catalog
              "regular_ll" ["Ni"; "Nj"; "gridType"] [])
    as [-> _]; [reflexivity | reflexivity |].
  vm_compute. reflexivity.
Defined.

(** C5. For a message whose [gridType] value is not a key of the grid-type
    catalog (an absent [gridType] reads as [None], which is no key), the
    significance sniffer does not fail: it logs one warning naming the grid
    type and returns exactly the edition-independent keys whose value in
    the message is present and non-null, in the order of that list. *)
Theorem sniff_significant_keys_unknown_grid_type
    (message : gmap string pyval) (ei_keys : list string)
    (grid_type_map : gmap string (list string)) (log : list log_record) :
  (∀ grid_type, message !! "gridType" = Some (VStr grid_type) →
                grid_type_map !! grid_type = None) →
  sniff_significant_keys message ei_keys grid_type_map log =
    (Ok (filter (present_non_null message) ei_keys),
     log ++ [LogWarning "unknown gridType %r"
                        (message_get message "gridType" VNone)]).
Proof.
  intros Hunknown.
  assert (grid_type_map_get grid_type_map
            (message_get message "gridType" VNone) = None) as Hget.
  { unfold message_get.
    destruct (message !! "gridType") as [[| | |g]|] eqn:E; simpl; auto. }
  by rewrite sniff_significant_keys_cases, Hget.
Qed.

Lemma sniff_significant_keys_unknown_grid_type_witness :
  let message : gmap string pyval :=
    {[ "paramId" := VInt 130; "shortName" := VStr "t"; "units" := VNone;
       "gridType" := VStr "sh" ]} in
  GRID_TYPE_MAP !! "sh" = None
  ∧ sniff_significant_keys message EDITION_INDEPENDENT_KEYS GRID_TYPE_MAP [] =
      (Ok ["paramId"; "shortName"; "gridType"],
       [LogWarning "unknown gridType %r" (VStr "sh")]).
Proof.
  intros message. split; [reflexivity|].
  rewrite (sniff_significant_keys_unknown_grid_type
             message EDITION_INDEPENDENT_KEYS GRID_TYPE_MAP []).
  - vm_compute. reflexivity.
  - intros grid_type Hg. vm_compute in Hg. injection Hg as <-. reflexivity.
Defined.

(* ===================================================================== *)
(** ** The coordinate sniffer *)
(* ===================================================================== *)

(** The loop of [sniff_raw_coordinates] from a dictionary [acc] whose keys
    the remaining keys avoid: it fails at the first key without an entry,
    and otherwise appends one item per key. *)
Lemma raw_coordinates_loop (significant_index : gmap string (list pyval))
    (keys : list string) (acc : pydict string (list pyval)) :
  NoDup keys → (∀ key, key ∈ keys → key ∉ dict_keys acc) →
  match for_each
          (λ raw_coordinates key,
             value ← index_getitem significant_index key;
             Ok (dict_set raw_coordinates key value))
          acc keys with
  | Ok raw_coordinates =>
      Forall2 (λ key item, item.1 = key ∧ significant_index !! key = Some item.2)
              keys (drop (length acc) raw_coordinates)
      ∧ take (length acc) raw_coordinates = acc
  | Raise e =>
      ∃ key, key ∈ keys ∧ significant_index !! key = None ∧ e = KeyError key
  end.
Proof.
  set (body := λ (raw_coordinates : pydict string (list pyval)) key, _).
  assert (∀ d key, body d key =
            match significant_index !! key with
            | Some value => Ok (dict_set d key value)
            | None => Raise (KeyError key)
            end) as Hbody.
  { intros d key. unfold body, index_getitem.
    by destruct (significant_index !! key). }
  clearbody body.
  revert acc. induction keys as [|key keys IH]; intros acc Hnd Hfresh.
  - simpl. rewrite drop_all, firstn_all. by split.
  - apply NoDup_cons in Hnd as [Hkey Hnd].
    rewrite for_each_cons, Hbody.
    destruct (significant_index !! key) as [value|] eqn:E.
    + rewrite dict_set_fresh by (apply Hfresh; by left).
      assert (∀ k, k ∈ keys → k ∉ dict_keys (acc ++ [(key, value)])) as Hfresh'.
      { intros k Hk. unfold dict_keys. rewrite fmap_app, elem_of_app. simpl.
        rewrite list_elem_of_singleton. intros [Hin| ->]; [|done].
        eapply Hfresh; [by right|done]. }
      specialize (IH (acc ++ [(key, value)]) Hnd Hfresh').
      destruct (for_each _ _ keys) as [raw|e].
      * destruct IH as [Hitems Htake].
        rewrite length_app in Hitems, Htake. simpl in Hitems, Htake.
        assert (raw = acc ++ (key, value) :: drop (length acc + 1) raw) as Hraw.
        { rewrite <- (take_drop (length acc + 1) raw) at 1.
          rewrite Htake, <- app_assoc. done. }
        split.
        -- rewrite Hraw at 1. rewrite drop_app_length.
           constructor; [by split|done].
        -- rewrite Hraw. by rewrite take_app_length.
      * destruct IH as (k & Hk & Hnone & ->).
        exists k. split; [by right|done].
    + exists key. split; [by left|done].
Qed.

Lemma RAW_COORDINATES_KEYS_NoDup : NoDup RAW_COORDINATES_KEYS.
Proof. compute_done. Qed.

(** What a successful run of the coordinate sniffer over the five candidate
    keys returns: one item per key, in the order of the keys, holding the
    sequence the index has for that key. *)
Lemma sniff_raw_coordinates_Ok (significant_index : gmap string (list pyval))
    (grid_type_map : gmap string (list string))
    (raw_coordinates : pydict string (list pyval)) :
  sniff_raw_coordinates significant_index RAW_COORDINATES_KEYS grid_type_map
    = Ok raw_coordinates →
  Forall2 (λ key item, item.1 = key ∧ significant_index !! key = Some item.2)
          RAW_COORDINATES_KEYS raw_coordinates.
Proof.
  intros Hsniff. unfold sniff_raw_coordinates in Hsniff.
  pose proof (raw_coordinates_loop significant_index RAW_COORDINATES_KEYS []
                RAW_COORDINATES_KEYS_NoDup) as Hloop.
  rewrite Hsniff in Hloop. simpl in Hloop.
  apply Hloop. intros key _. unfold dict_keys. simpl. apply not_elem_of_nil.
Qed.

Lemma Forall2_dict_keys (significant_index : gmap string (list pyval))
    (keys : list string) (d : pydict string (list pyval)) :
  Forall2 (λ key item, item.1 = key ∧ significant_index !! key = Some item.2)
          keys d →
  dict_keys d = keys.
Proof.
  unfold dict_keys. induction 1 as [|k [k' v] ks d' [Hk _] _ IH]; [done|].
  simpl in Hk. subst k'. change (k :: d'.*1 = k :: ks). by f_equal.
Qed.

Lemma Forall2_dict_get (significant_index : gmap string (list pyval))
    (keys : list string) (d : pydict string (list pyval)) (key : string) :
  Forall2 (λ key item, item.1 = key ∧ significant_index !! key = Some item.2)
          keys d →
  key ∈ keys → dict_get d key = significant_index !! key.
Proof.
  induction 1 as [|k [k' v] ks d' [Hk Hv] _ IH]; simpl in *.
  - by intros ?%elem_of_nil.
  - subst k'. intros Hin. case_decide as Hd; [by subst|].
    apply elem_of_cons in Hin as [?|Hin]; [done|]. by apply IH.
Qed.


Example sniff_raw_coordinates_full_index :
  sniff_raw_coordinates
    {[ "number" := [VInt 1]; "dataDate" := [VInt 20200101];
       "dataTime" := [VInt 0]; "endStep" := [VInt 10; VInt 20];
       "topLevel" := [] ]}
    RAW_COORDINATES_KEYS GRID_TYPE_MAP =
  Ok [("number", [VInt 1]); ("dataDate", [VInt 20200101]);
      ("dataTime", [VInt 0]); ("endStep", [VInt 10; VInt 20]);
      ("topLevel", [])].
Proof. vm_compute. reflexivity. Qed.

Example sniff_raw_coordinates_missing_key :
  sniff_raw_coordinates
    {[ "number" := [VInt 1]; "dataDate" := [VInt 20200101];
       "endStep" := [VInt 10; VInt 20]; "topLevel" := [VInt 0] ]}
    RAW_COORDINATES_KEYS GRID_TYPE_MAP =
  Raise (KeyError "dataTime").
Proof. vm_compute. reflexivity. Qed.

(** C10. The coordinate sniffer never consults its grid-type catalog: on
    the same index and key list any two catalogs give equal results. *)
Theorem sniff_raw_coordinates_catalog_independent
    (significant_index : gmap string (list pyval))
    (raw_coordinates_keys : list string)
    (grid_type_map1 grid_type_map2 : gmap string (list string)) :
  sniff_raw_coordinates significant_index raw_coordinates_keys grid_type_map1 =
  sniff_raw_coordinates significant_index raw_coordinates_keys grid_type_map2.
Proof. reflexivity. Qed.

(* ===================================================================== *)
(** ** The attribute sniffer *)
(* ===================================================================== *)

Lemma n_distinct_le (value : list pyval) : n_distinct value ≤ length value.
Proof.
  unfold n_distinct. induction value as [|v value IH]; simpl; [done|].
  case_decide; simpl; lia.
Qed.

Lemma n_distinct_NoDup (value : list pyval) :
  NoDup value → n_distinct value = length value.
Proof.
  unfold n_distinct. induction 1 as [|v value Hv _ IH]; simpl; [done|].
  case_decide; [done|]. simpl. by rewrite IH.
Qed.

Section AttrsLoop.
Variable significant_index : gmap string (list pyval).

Lemma attrs_body_Ok attrs key attrs' :
  sniff_variable_attrs_step significant_index attrs key = Ok attrs' →
  ∃ v, significant_index !! key = Some [v] ∧ attrs' = dict_set attrs key v.
Proof.
  unfold sniff_variable_attrs_step, index_getitem.
  destruct (significant_index !! key) as [[|v [|w value]]|]; simpl; try done.
  intros [= <-]. eauto.
Qed.

Lemma attrs_body_Raise attrs key e :
  sniff_variable_attrs_step significant_index attrs key = Raise e →
  (significant_index !! key = None ∧ e = KeyError key)
  ∨ (significant_index !! key = Some [] ∧ e = IndexError)
  ∨ (∃ value, significant_index !! key = Some value ∧ 1 < length value
              ∧ e = NotImplementedError (MultipleValues key value)).
Proof.
  unfold sniff_variable_attrs_step, index_getitem.
  destruct (significant_index !! key) as [[|v [|w value]]|]; simpl; try done.
  - intros [= <-]. right. left. done.
  - intros [= <-]. right. right. eexists. split; [done|]. simpl.
    split; [lia|done].
  - intros [= <-]. by left.
Qed.

Lemma attrs_loop_Ok keys acc attrs :
  for_each (sniff_variable_attrs_step significant_index) acc keys = Ok attrs →
  (∀ key, key ∈ dict_keys attrs ↔ key ∈ dict_keys acc ∨ key ∈ keys)
  ∧ (∀ key, key ∈ keys →
       ∃ v, significant_index !! key = Some [v] ∧ dict_get attrs key = Some v)
  ∧ (∀ key, key ∉ keys → dict_get attrs key = dict_get acc key).
Proof.
  revert acc. induction keys as [|key keys IH]; intros acc.
  - simpl. intros [= <-]. split; [|split].
    + intros key. rewrite elem_of_nil. tauto.
    + by intros key ?%elem_of_nil.
    + done.
  - rewrite for_each_cons.
    destruct (sniff_variable_attrs_step significant_index acc key) as [acc'|e] eqn:Hbody; [|done].
    apply attrs_body_Ok in Hbody as (v & Hv & ->).
    intros (Hkeys & Hget & Hother)%IH. split; [|split].
    + intros k. rewrite Hkeys, dict_keys_set, elem_of_cons. tauto.
    + intros k Hk. destruct (decide (k ∈ keys)) as [Hin|Hnotin]; [by apply Hget|].
      apply elem_of_cons in Hk as [->|Hk]; [|done].
      exists v. split; [done|]. by rewrite Hother, dict_get_set_eq.
    + intros k Hk. apply not_elem_of_cons in Hk as [Hne Hk].
      by rewrite Hother, dict_get_set_ne.
Qed.

Lemma attrs_loop_Raise keys acc e :
  (∀ key, key ∈ keys →
     ∃ value, significant_index !! key = Some value ∧ value ≠ []) →
  for_each (sniff_variable_attrs_step significant_index) acc keys = Raise e →
  ∃ key value, key ∈ keys ∧ significant_index !! key = Some value
               ∧ 1 < length value
               ∧ e = NotImplementedError (MultipleValues key value).
Proof.
  revert acc. induction keys as [|key keys IH]; intros acc Hkeys; [done|].
  rewrite for_each_cons.
  destruct (sniff_variable_attrs_step significant_index acc key) as [acc'|e'] eqn:Hbody.
  - intros (k & value & Hk & H)%IH.
    + exists k, value. split; [by right|done].
    + intros k Hk. apply Hkeys. by right.
  - intros [= ->].
    destruct (Hkeys key) as (value & Hvalue & Hne); [by left|].
    apply attrs_body_Raise in Hbody
      as [[Hnone _]|[[Hnil _]|(value' & Hv & Hlen & ->)]]; [congruence..|].
    exists key, value'. split; [by left|done].
Qed.

(** The sniffer is the loop over the tracked keys once the grid type has
    been read off the index. *)
Lemma sniff_variable_attrs_loop attrs_keys grid_type_map :
  significant_index !! "gridType" ≠ Some [] →
  sniff_variable_attrs significant_index attrs_keys grid_type_map =
  for_each (sniff_variable_attrs_step significant_index) [] (tracked_keys significant_index attrs_keys grid_type_map).
Proof.
  intros Hgt. unfold sniff_variable_attrs, tracked_keys, index_grid_type,
    index_get.
  by destruct (significant_index !! "gridType") as [[|g value]|].
Qed.
End AttrsLoop.

(** C2, as the code has it. On an index with an entry for every tracked
    key, each entry a non-empty sequence of distinct values, the attribute
    sniffer raises the inconsistent-attribute error if and only if some
    tracked key has two or more distinct values, and then returns no
    mapping; otherwise it returns a mapping whose keys are exactly the
    tracked keys, each mapped to its sole value. *)
Theorem sniff_variable_attrs_nonempty_index
    (significant_index : gmap string (list pyval)) (attrs_keys : list string)
    (grid_type_map : gmap string (list string)) :
  distinct_values significant_index →
  nonempty_values significant_index →
  index_over significant_index
    (tracked_keys significant_index attrs_keys grid_type_map) →
  attrs_contract significant_index attrs_keys grid_type_map.
Proof.
  intros Hdistinct Hnonempty Hover. unfold attrs_contract. cbv zeta.
  rewrite sniff_variable_attrs_loop
    by (intros Hnil; by eapply (Hnonempty "gridType")).
  set (tracked := tracked_keys significant_index attrs_keys grid_type_map) in *.
  assert (∀ key, key ∈ tracked →
            ∃ value, significant_index !! key = Some value ∧ value ≠ [])
    as Hentries.
  { intros key Hkey. unfold index_over in Hover.
    rewrite Forall_forall in Hover.
    destruct (Hover key Hkey) as [value Hvalue]. exists value. split; [done|].
    by eapply (Hnonempty key). }
  destruct (for_each _ _ tracked) as [attrs|e] eqn:Hloop.
  - apply attrs_loop_Ok in Hloop as (Hkeys & Hget & _).
    assert (¬ multi_valued significant_index tracked) as Hsingle.
    { intros (key & value & Hin & Hvalue & Hn).
      destruct (Hget key Hin) as (v & Hv & _).
      rewrite Hvalue in Hv. injection Hv as ->. vm_compute in Hn. lia. }
    split; [|split].
    + split; [by intros (? & ? & ?)|done].
    + done.
    + intros _. exists attrs. split; [done|]. split; [|done].
      intros key. rewrite Hkeys. unfold dict_keys. simpl.
      rewrite elem_of_nil. tauto.
  - apply attrs_loop_Raise in Hloop
      as (key & value & Hin & Hvalue & Hlen & ->); [|done].
    assert (multi_valued significant_index tracked) as Hmulti.
    { exists key, value. split; [done|]. split; [done|].
      rewrite n_distinct_NoDup by (by eapply (Hdistinct key)). lia. }
    split; [|split].
    + split; [done|]. intros _. by exists key, value.
    + intros _ [attrs Hattrs]. done.
    + done.
Qed.

Lemma sniff_variable_attrs_nonempty_index_witness :
  let index : gmap string (list pyval) :=
    {[ "centre" := [VStr "ecmf"]; "units" := [VStr "K"; VStr "degC"] ]} in
  attrs_contract index ["centre"; "units"] GRID_TYPE_MAP
  ∧ sniff_variable_attrs index ["centre"; "units"] GRID_TYPE_MAP =
      Raise (NotImplementedError
               (MultipleValues "units" [VStr "K"; VStr "degC"])).
Proof.
  intros index. split; [|reflexivity].
  apply sniff_variable_attrs_nonempty_index.
  - apply (bool_decide_unpack _). vm_compute. exact I.
  - apply (bool_decide_unpack _). vm_compute. exact I.
  - apply (bool_decide_unpack _). vm_compute. exact I.
Defined.

(** C2, as stated, fails on an index that holds an empty sequence for a
    tracked key: no tracked key has two distinct values, yet the sniffer
    returns no mapping (taking the first element of the empty sequence
    raises [IndexError]). *)
Lemma sniff_variable_attrs_empty_sequence :
  let index : gmap string (list pyval) := {[ "centre" := [] ]} in
  distinct_values index
  ∧ index_over index (tracked_keys index ["centre"] GRID_TYPE_MAP)
  ∧ sniff_variable_attrs index ["centre"] GRID_TYPE_MAP = Raise IndexError
  ∧ ¬ attrs_contract index ["centre"] GRID_TYPE_MAP.
Proof.
  intros index.
  assert (¬ multi_valued index (tracked_keys index ["centre"] GRID_TYPE_MAP))
    as Hsingle.
  { intros (key & value & Hin & Hvalue & Hn). vm_compute in Hin.
    apply elem_of_cons in Hin as [->|Hin]; [|by apply elem_of_nil in Hin].
    vm_compute in Hvalue. injection Hvalue as <-. vm_compute in Hn. lia. }
  split; [|split; [|split]].
  - apply (bool_decide_unpack _). vm_compute. exact I.
  - apply (bool_decide_unpack _). vm_compute. exact I.
  - reflexivity.
  - intros (_ & _ & Hmapping). destruct (Hmapping Hsingle) as (attrs & Hattrs & _).
    vm_compute in Hattrs. discriminate Hattrs.
Qed.

(** C8, as the code has it. When the index has no entry for [gridType]
    (the key is absent from the index), the attribute sniffer reads the
    grid type as [None] without failing, finds no grid-type keys for it in
    the catalog, and so runs over the attribute-key list alone: its outcome
    is the one it has with an empty catalog, and it returns a mapping
    whenever every attribute key has a single value in the index. *)
Theorem sniff_variable_attrs_no_gridType_entry
    (significant_index : gmap string (list pyval)) (attrs_keys : list string)
    (grid_type_map : gmap string (list string)) :
  significant_index !! "gridType" = None →
  getitem0 (index_get significant_index "gridType" [VNone]) = Ok VNone
  ∧ tracked_keys significant_index attrs_keys grid_type_map = attrs_keys
  ∧ sniff_variable_attrs significant_index attrs_keys grid_type_map =
    sniff_variable_attrs significant_index attrs_keys ∅
  ∧ ((∀ key, key ∈ attrs_keys → ∃ v, significant_index !! key = Some [v]) →
     ∃ attrs,
       sniff_variable_attrs significant_index attrs_keys grid_type_map = Ok attrs
       ∧ (∀ key, key ∈ dict_keys attrs ↔ key ∈ attrs_keys)).
Proof.
  intros Hnone.
  assert (tracked_keys significant_index attrs_keys grid_type_map = attrs_keys)
    as Htracked.
  { unfold tracked_keys, index_grid_type. rewrite Hnone. simpl.
    apply app_nil_r. }
  assert (tracked_keys significant_index attrs_keys ∅ = attrs_keys)
    as Htracked0.
  { unfold tracked_keys, index_grid_type. rewrite Hnone. simpl.
    apply app_nil_r. }
  split; [|split; [done|split]].
  - unfold index_get. by rewrite Hnone.
  - rewrite !sniff_variable_attrs_loop by (by rewrite Hnone).
    by rewrite Htracked, Htracked0.
  - intros Hsingle.
    rewrite sniff_variable_attrs_loop by (by rewrite Hnone). rewrite Htracked.
    destruct (for_each _ _ attrs_keys) as [attrs|e] eqn:Hloop.
    + exists attrs. split; [done|].
      apply attrs_loop_Ok in Hloop as (Hkeys & _ & _).
      intros key. rewrite Hkeys. unfold dict_keys. simpl.
      rewrite elem_of_nil. tauto.
    + exfalso. apply attrs_loop_Raise in Hloop
        as (key & value & Hin & Hvalue & Hlen & _).
      * destruct (Hsingle key Hin) as (v & Hv). rewrite Hv in Hvalue.
        injection Hvalue as <-. simpl in Hlen. lia.
      * intros key Hin. destruct (Hsingle key Hin) as (v & ->). by eexists.
Qed.

Lemma sniff_variable_attrs_no_gridType_entry_witness :
  let index : gmap string (list pyval) :=
    {[ "centre" := [VStr "ecmf"]; "units" := [VStr "K"] ]} in
  index !! "gridType" = None
  ∧ sniff_variable_attrs index ["centre"; "units"] GRID_TYPE_MAP =
    sniff_variable_attrs index ["centre"; "units"] ∅
  ∧ sniff_variable_attrs index ["centre"; "units"] GRID_TYPE_MAP =
    Ok [("centre", VStr "ecmf"); ("units", VStr "K")].
Proof.
  intros index. split; [reflexivity|]. split; [|reflexivity].
  apply (sniff_variable_attrs_no_gridType_entry index ["centre"; "units"]
           GRID_TYPE_MAP).
  reflexivity.
Defined.

(** C8, as stated, fails on an index that binds [gridType] to the empty
    sequence: the value sequence for [gridType] is empty, yet the
    grid-type determination step raises [IndexError] (the default [[None]]
    only serves an index without the key), and the sniffer raises where
    the loop over the attribute keys alone returns a mapping. *)
Lemma sniff_variable_attrs_gridType_bound_to_empty :
  let index : gmap string (list pyval) :=
    {[ "gridType" := []; "centre" := [VStr "ecmf"] ]} in
  gridType_sequence_empty index
  ∧ getitem0 (index_get index "gridType" [VNone]) = Raise IndexError
  ∧ sniff_variable_attrs index ["centre"] GRID_TYPE_MAP = Raise IndexError
  ∧ for_each (sniff_variable_attrs_step index) [] ["centre"] =
      Ok [("centre", VStr "ecmf")]
  ∧ ¬ no_grid_type_contract index ["centre"] GRID_TYPE_MAP.
Proof.
  intros index.
  split; [reflexivity|]. split; [reflexivity|]. split; [reflexivity|].
  split; [reflexivity|].
  intros [[grid_type Hok] _]. vm_compute in Hok. discriminate Hok.
Qed.

(* ===================================================================== *)
(** ** Variable construction *)
(* ===================================================================== *)

Lemma M_bind_Ok {A B} (m : M A) (f : A → M B) log b log' :
  (m ≫= f) log = (Ok b, log') →
  ∃ a log1, m log = (Ok a, log1) ∧ f a log1 = (Ok b, log').
Proof.
  unfold mbind, M_bind. destruct (m log) as [[a|e] log1]; [eauto|done].
Qed.

Lemma lift_Ok {A} (r : result A) log a log' :
  lift r log = (Ok a, log') → r = Ok a ∧ log' = log.
Proof. unfold lift. by intros [= -> ->]. Qed.

Section VariableFacts.
Variable Index_new : string → list string → Index.
Variable Stream_index : Stream.t → list string → Index.
Variable float_str : Z → string.

(** What the attributes of a constructed [Variable] are. *)
Lemma Variable_post_init_Ok paramId stream name log self log' :
  Variable_post_init Index_new Stream_index float_str paramId stream name log
    = (Ok self, log') →
  sniff_variable_attrs (index_values (Var.significant_index self))
    VARIABLE_ATTRS_KEYS GRID_TYPE_MAP = Ok (Var.attrs self)
  ∧ sniff_raw_coordinates (index_values (Var.significant_index self))
      RAW_COORDINATES_KEYS GRID_TYPE_MAP = Ok (Var.coordinates self)
  ∧ Var.dimensions self =
      (filter (λ item : string * list pyval, 1 < length item.2)
              (dict_items (Var.coordinates self))).*1
  ∧ Var.ndim self = length (Var.dimensions self)
  ∧ Var.shape self =
      length <$> filter (λ coord : list pyval, 1 < length coord)
                        (dict_values (Var.coordinates self))
  ∧ Var.dtype self = float32
  ∧ Var._build_array self = None.
Proof.
  unfold Variable_post_init. case_decide; [by intros [? _]%lift_Ok|].
  intros (leader & log1 & _ & H1)%M_bind_Ok.
  apply M_bind_Ok in H1 as (keys & log2 & _ & H2).
  apply M_bind_Ok in H2 as (attrs & log3 & [Hattrs _]%lift_Ok & H3).
  apply M_bind_Ok in H3 as (coords & log4 & [Hcoords _]%lift_Ok & H4).
  apply M_bind_Ok in H4 as (size & log5 & _ & H5).
  injection H5 as <- <-. simpl. done.
Qed.
End VariableFacts.

Lemma dict_get_elem_of {V} (d : pydict string V) (k : string) (v : V) :
  NoDup (dict_keys d) → (k, v) ∈ d → dict_get d k = Some v.
Proof.
  unfold dict_keys. induction d as [|[k0 v0] d IH]; simpl.
  - by intros _ ?%elem_of_nil.
  - intros [Hk0 Hnd]%NoDup_cons [[= -> ->]|Hin]%elem_of_cons.
    + by case_decide.
    + case_decide as Hd; [|by apply IH]. subst k0. exfalso. apply Hk0.
      apply list_elem_of_fmap. by exists (k, v).
Qed.

(** Filtering the items and the values of a dictionary on the length of
    the value, read through any function that gives each key its value. *)
Lemma filter_items_values (d : pydict string (list pyval))
    (get : string → list pyval) :
  (∀ k v, (k, v) ∈ d → get k = v) →
  (filter (λ item : string * list pyval, 1 < length item.2) (dict_items d)).*1
    = filter (λ k, 1 < length (get k)) (dict_keys d)
  ∧ length <$> filter (λ coord : list pyval, 1 < length coord) (dict_values d)
    = (λ k, length (get k)) <$>
        filter (λ k, 1 < length (get k)) (dict_keys d).
Proof.
  unfold dict_items, dict_keys, dict_values.
  induction d as [|[k v] d IH]; intros Hget; [done|].
  destruct IH as [IH1 IH2].
  { intros k' v' Hin. apply Hget. by right. }
  assert (get k = v) as Hk by (apply Hget; by left).
  rewrite !fmap_cons, !filter_cons. simpl. rewrite Hk.
  case_decide; rewrite ?fmap_cons; simpl; rewrite ?Hk; by rewrite IH1, IH2.
Qed.

Section VariableProperties.
Variable Index_new : string → list string → Index.
Variable Stream_index : Stream.t → list string → Index.
Variable float_str : Z → string.

Lemma Variable_new_Ok kwargs log self log' :
Variable_new Index_new Stream_index float_str kwargs log = (Ok self, log') →
∃ paramId stream name,
  Variable_post_init Index_new Stream_index float_str paramId stream name log
    = (Ok self, log').
Proof.
unfold Variable_new.
destruct (kw_other kwargs); [|by intros [? _]%lift_Ok].
destruct (kw_paramId kwargs) as [paramId|]; [|by intros [? _]%lift_Ok].
destruct (kw_stream kwargs) as [stream|]; [|by intros [? _]%lift_Ok].
eauto.
Qed.

(** C7. For every successfully constructed [Variable]: its coordinates
  hold the five candidate keys in their fixed order; [dimensions] is the
  subsequence of those keys whose coordinate sequence has more than one
  value, in that order; [shape] lists the lengths of the same sequences in
  the same order, so both have the same length and [shape[i]] is the
  length of [coordinates[dimensions[i]]]; and a key with exactly one
  value is a key of [coordinates] but not a dimension, every entry of
  [shape] being greater than 1. *)
Theorem Variable_dimensions_shape kwargs log self log' :
Variable_new Index_new Stream_index float_str kwargs log = (Ok self, log') →
dict_keys (Var.coordinates self) = RAW_COORDINATES_KEYS
∧ Var.dimensions self =
    filter (λ key, 1 < length (coordinate (Var.coordinates self) key))
           RAW_COORDINATES_KEYS
∧ Var.shape self =
    (λ key, length (coordinate (Var.coordinates self) key)) <$>
      Var.dimensions self
∧ length (Var.shape self) = length (Var.dimensions self)
∧ (∀ i key, Var.dimensions self !! i = Some key →
     Var.shape self !! i =
       Some (length (coordinate (Var.coordinates self) key)))
∧ Forall (λ n, 1 < n) (Var.shape self)
∧ (∀ key value, dict_get (Var.coordinates self) key = Some value →
     length value = 1 →
     key ∈ dict_keys (Var.coordinates self) ∧ key ∉ Var.dimensions self).
Proof.
intros (paramId & stream & name & Hinit)%Variable_new_Ok.
apply Variable_post_init_Ok in Hinit
  as (_ & Hcoords & Hdims & _ & Hshape & _ & _).
apply sniff_raw_coordinates_Ok in Hcoords.
pose proof (Forall2_dict_keys _ _ _ Hcoords) as Hkeys.
destruct (filter_items_values (Var.coordinates self)
            (coordinate (Var.coordinates self))) as [Hitems Hvalues].
{ intros k v Hin. unfold coordinate.
  rewrite (dict_get_elem_of _ k v); [done| |done].
  rewrite Hkeys. apply RAW_COORDINATES_KEYS_NoDup. }
rewrite Hitems in Hdims. rewrite Hvalues, <- Hdims in Hshape.
rewrite Hkeys in Hdims.
split; [done|]. split; [done|]. split; [done|].
split; [by rewrite Hshape, length_fmap|].
split; [|split].
- intros i key Hi. by rewrite Hshape, list_lookup_fmap, Hi.
- rewrite Hshape, Forall_fmap, Hdims. apply Forall_forall.
  by intros key [Hlen _]%list_elem_of_filter.
- intros key value Hget Hlen. split; [by eapply dict_get_Some_keys|].
  rewrite Hdims. intros [Hgt _]%list_elem_of_filter.
  unfold coordinate in Hgt. rewrite Hget in Hgt. simpl in Hgt. lia.
Qed.
End VariableProperties.

Lemma Variable_dimensions_shape_witness :
  ∃ self log',
    Variable_new (file_Index_new one_group_file)
      (file_Stream_index one_group_file) sample_float_str sample_kwargs [] = (Ok self, log')
    ∧ Var.dimensions self =
        filter (λ key, 1 < length (coordinate (Var.coordinates self) key))
               RAW_COORDINATES_KEYS
    ∧ Var.shape self =
        (λ key, length (coordinate (Var.coordinates self) key)) <$>
          Var.dimensions self.
Proof.
  destruct (Variable_new (file_Index_new one_group_file)
      (file_Stream_index one_group_file) sample_float_str sample_kwargs [])
    as [[self|e] log'] eqn:Hnew; [|vm_compute in Hnew; discriminate Hnew].
  exists self, log'. split; [reflexivity|].
  destruct (Variable_dimensions_shape _ _ _ _ _ _ _ Hnew)
    as (_ & Hdims & Hshape & _).
  by split.
Defined.

(* ===================================================================== *)
(** ** The cached array *)
(* ===================================================================== *)

Lemma np_full_shape shape fill_value dtype :
  nd_shape (np_full shape fill_value dtype) = shape.
Proof. reflexivity. Qed.

Lemma np_full_data shape fill_value dtype :
  Forall (λ x, x = fill_value) (nd_data (np_full shape fill_value dtype))
  ∧ length (nd_data (np_full shape fill_value dtype)) = foldr Nat.mul 1 shape.
Proof.
  simpl. split; [|apply length_replicate].
  apply Forall_forall. by intros x [-> _]%elem_of_replicate.
Qed.

Lemma build_array_call (self0 self : Var.t) (log : list log_record) :
  cache_consistent self0 self →
  ∃ self', build_array self log = (Ok (full_array self0, self'), log)
           ∧ cache_consistent self0 self'.
Proof.
  intros (Hshape & Hdtype & Hcache).
  unfold build_array, cached.
  destruct (Var._build_array self) as [a|] eqn:Ha.
  - destruct Hcache as [?|[= ->]]; [done|].
    exists self. split; [done|]. split; [done|]. split; [done|]. by right.
  - eexists. unfold mbind, M_bind, mret, M_ret. simpl. split.
    + unfold full_array. by rewrite Hshape, Hdtype.
    + split; [done|]. split; [done|]. right. simpl.
      unfold full_array. by rewrite ?Hshape, ?Hdtype.
Qed.

Lemma build_array_calls_full (self0 : Var.t) (n : nat) :
  ∀ self log, cache_consistent self0 self →
    ∃ self', build_array_calls n self log
               = (Ok (replicate n (full_array self0), self'), log)
             ∧ cache_consistent self0 self'.
Proof.
  induction n as [|n IH]; intros self log Hself.
  - exists self. by split.
  - destruct (build_array_call self0 self log Hself) as (self1 & Hcall & H1).
    destruct (IH self1 log H1) as (self2 & Hcalls & H2).
    exists self2. split; [|done].
    simpl. unfold mbind, M_bind. rewrite Hcall. simpl. rewrite Hcalls. done.
Qed.

Section ArrayProperties.
Variable Index_new : string → list string → Index.
Variable Stream_index : Stream.t → list string → Index.
Variable float_str : Z → string.

(** C9. For every successfully constructed [Variable], any number of
  successive calls of [build_array] all return the same container: its
  shape is the [Variable]'s shape and every element is [NaN]; the
  container is a function of the shape alone (no message is read), and
  the calls leave the shape as it was and log nothing. *)
Theorem build_array_idempotent kwargs log self log' :
Variable_new Index_new Stream_index float_str kwargs log = (Ok self, log') →
∀ (n : nat) (log1 : list log_record),
  ∃ self',
    build_array_calls n self log1 =
      (Ok (replicate n (np_full (Var.shape self) NaN float32), self'), log1)
    ∧ Var.shape self' = Var.shape self
    ∧ nd_shape (np_full (Var.shape self) NaN float32) = Var.shape self
    ∧ Forall (λ x, x = NaN) (nd_data (np_full (Var.shape self) NaN float32)).
Proof.
intros (paramId & stream & name & Hinit)%Variable_new_Ok n log1.
apply Variable_post_init_Ok in Hinit as (_ & _ & _ & _ & _ & Hdtype & Hcache).
destruct (build_array_calls_full self n self log1) as (self' & Hcalls & H').
{ split; [done|]. split; [done|]. by left. }
exists self'. unfold full_array in Hcalls. rewrite Hdtype in Hcalls.
split; [done|]. split; [apply H'|]. split; [done|].
apply np_full_data.
Qed.
End ArrayProperties.

Lemma build_array_idempotent_witness :
  ∃ self log',
    Variable_new (file_Index_new one_group_file)
      (file_Stream_index one_group_file) sample_float_str sample_kwargs [] = (Ok self, log')
    ∧ ∃ self',
        build_array_calls 3 self [] =
          (Ok (replicate 3 (np_full (Var.shape self) NaN float32), self'), []).
Proof.
  destruct (Variable_new (file_Index_new one_group_file)
      (file_Stream_index one_group_file) sample_float_str sample_kwargs [])
    as [[self|e] log'] eqn:Hnew; [|vm_compute in Hnew; discriminate Hnew].
  exists self, log'. split; [reflexivity|].
  destruct (build_array_idempotent _ _ _ _ _ _ _ Hnew 3 []) as (self' & Hcalls & _).
  by exists self'.
Defined.

(* ===================================================================== *)
(** ** The grouping guard *)
(* ===================================================================== *)

(** An index that tracks no key but the one asked for has length at most 1,
    whatever the messages hold. *)
Lemma Index_len_single (index : Index) (key : string) :
  dom (index_values index) ⊆ {[key]} → Index_len index ≤ 1.
Proof.
  intros Hdom. unfold Index_len. rewrite <- size_dom.
  apply subseteq_size in Hdom. by rewrite size_singleton in Hdom.
Qed.

Lemma build_index_dom (msgs : list (gmap string pyval)) (keys : list string) :
  dom (index_values (build_index msgs keys)) = list_to_set keys.
Proof.
  unfold build_index. simpl. rewrite dom_list_to_map_L.
  by rewrite <- list_fmap_compose, list_fmap_id.
Qed.

Lemma sniff_variable_attrs_errors (significant_index : gmap string (list pyval))
    (attrs_keys : list string) (grid_type_map : gmap string (list string))
    (e : exn) :
  sniff_variable_attrs significant_index attrs_keys grid_type_map = Raise e →
  e ≠ NotImplementedError OnlyOneVariable.
Proof.
  unfold sniff_variable_attrs.
  destruct (getitem0 _) as [grid_type|e0] eqn:Hg; simpl.
  - generalize (attrs_keys ++
      default [] (grid_type_map_get grid_type_map grid_type)).
    generalize ([] : pydict string pyval).
    intros acc keys. revert acc.
    induction keys as [|key keys IH]; intros acc; [done|].
    rewrite for_each_cons.
    destruct (sniff_variable_attrs_step _ acc key) as [acc'|e'] eqn:Hstep.
    + apply IH.
    + intros [= ->].
      apply attrs_body_Raise in Hstep
        as [[_ ->]|[[_ ->]|(value & _ & _ & ->)]]; done.
  - unfold getitem0 in Hg. destruct (index_get _ _ _); [|done].
    injection Hg as <-. by intros [= <-].
Qed.

Lemma sniff_raw_coordinates_errors (significant_index : gmap string (list pyval))
    (keys : list string) (grid_type_map : gmap string (list string)) (e : exn) :
  sniff_raw_coordinates significant_index keys grid_type_map = Raise e →
  e ≠ NotImplementedError OnlyOneVariable.
Proof.
  unfold sniff_raw_coordinates.
  generalize ([] : pydict string (list pyval)). intros acc. revert acc.
  induction keys as [|key keys IH]; intros acc; [done|].
  rewrite for_each_cons. unfold index_getitem at 1.
  destruct (significant_index !! key) as [value|]; simpl.
  - apply IH.
  - by intros [= <-].
Qed.

Lemma never_raises_bind {A B} (e : exn) (m : M A) (f : A → M B) :
  never_raises e m → (∀ a, never_raises e (f a)) → never_raises e (m ≫= f).
Proof.
  intros Hm Hf log. unfold mbind, M_bind. specialize (Hm log).
  destruct (m log) as [[a|e'] log1]; simpl in *; [apply Hf|].
  intros [= ->]. by apply Hm.
Qed.

Lemma never_raises_lift {A} (e : exn) (r : result A) :
  r ≠ Raise e → never_raises e (lift r).
Proof. by intros Hr log. Qed.

Lemma never_raises_ret {A} (e : exn) (a : A) : never_raises e (mret a).
Proof. by intros log. Qed.

Section GroupingGuard.
Variable Index_new : string → list string → Index.
Variable Stream_index : Stream.t → list string → Index.
Variable float_str : Z → string.

(** When the index over [paramId] tracks no other key, the condition of
    the guard of [__attrs_post_init__] is false and construction never
    raises the guard's error. *)
Lemma Variable_post_init_guard paramId stream name log :
  dom (index_values (Stream_index stream ["paramId"])) ⊆ {["paramId"]} →
  ¬ 1 < Index_len (Stream_index stream ["paramId"])
  ∧ (Variable_post_init Index_new Stream_index float_str paramId stream name
       log).1
      ≠ Raise (NotImplementedError OnlyOneVariable).
Proof.
  intros Hlen%Index_len_single. split; [lia|]. revert log.
  change (never_raises (NotImplementedError OnlyOneVariable)
            (Variable_post_init Index_new Stream_index float_str paramId
               stream name)).
  unfold Variable_post_init. case_decide; [lia|].
  apply never_raises_bind.
  { apply never_raises_lift. by destruct (Index_select _ _). }
  intros leader. apply never_raises_bind.
  { intros log. rewrite sniff_significant_keys_cases.
    by destruct (grid_type_map_get _ _). }
  intros significant_keys. apply never_raises_bind.
  { apply never_raises_lift. intros Hattrs.
    by eapply sniff_variable_attrs_errors. }
  intros attrs. apply never_raises_bind.
  { apply never_raises_lift. intros Hcoords.
    by eapply sniff_raw_coordinates_errors. }
  intros coordinates. apply never_raises_bind.
  { apply never_raises_lift. unfold message_getitem.
    by destruct (leader !! "numberOfDataPoints"). }
  intros size. apply never_raises_ret.
Qed.
End GroupingGuard.

(** C3, on the code. The guard compares the length of the index over
    [paramId] with 1, and the length of a mapping counts its keys, not the
    values held for [paramId]: whenever that index tracks no key but
    [paramId], the guard is passed and the construction never raises the
    multi-value-grouping error; the index of the data model tracks exactly
    the keys asked for. With the two parameter ids 1 and 2 in the stream,
    constructing the [Variable] for parameter 1 gets past the guard and
    only fails in the attribute sniffer, with the inconsistent-attribute
    error on [paramId]. *)
Theorem Variable_grouping_guard_two_groups :
  (∀ Index_new Stream_index float_str paramId stream name log,
     dom (index_values (Stream_index stream ["paramId"])) ⊆ {["paramId"]} →
     ¬ 1 < Index_len (Stream_index stream ["paramId"])
     ∧ (Variable_post_init Index_new Stream_index float_str paramId stream
          name log).1
         ≠ Raise (NotImplementedError OnlyOneVariable))
  ∧ (∀ grib_file stream,
       dom (index_values (file_Stream_index grib_file stream ["paramId"]))
         ⊆ {["paramId"]})
  ∧ index_values (file_Stream_index two_groups_file sample_stream ["paramId"])
      !! "paramId" = Some [VInt 1; VInt 2]
  ∧ Index_len (file_Stream_index two_groups_file sample_stream ["paramId"]) = 1
  ∧ Variable_new (file_Index_new two_groups_file)
      (file_Stream_index two_groups_file) sample_float_str sample_kwargs [] =
      (Raise (NotImplementedError
                (MultipleValues "paramId" [VInt 1; VInt 2])), []).
Proof.
  split; [apply Variable_post_init_guard|].
  split.
  { intros grib_file stream. unfold file_Stream_index, file_Index_new.
    rewrite build_index_dom. simpl. by rewrite union_empty_r_L. }
  split; [|split]; vm_compute; reflexivity.
Qed.

(* ===================================================================== *)
(** ** Dataset.variables *)
(* ===================================================================== *)

Section DatasetProperties.
Variable Index_new : string → list string → Index.
Variable Stream_index : Stream.t → list string → Index.
Variable float_str : Z → string.

(** C1, on the code. [Dataset.variables] calls [Variable] with the keywords
  [paramId] and [dataset]; the class has the attributes [paramId],
  [stream] and [name], so the call raises [TypeError]. Whenever the
  grouping-key index enumerates at least one [paramId] value (and nothing
  is cached yet), [Dataset.variables] therefore raises [TypeError] at the
  first value: no [Variable] is constructed, no mapping is returned, and
  nothing is cached. *)
Theorem Dataset_variables_TypeError (self : Dataset.t) (log : list log_record)
  (param_id : pyval) (param_ids : list pyval) :
Dataset._variables self = None →
index_values (Stream_index (Dataset.stream self) ["paramId"])
  !! "paramId" = Some (param_id :: param_ids) →
Dataset_variables Index_new Stream_index float_str self log = (Raise TypeError, log).
Proof.
intros Hcache Hids.
unfold Dataset_variables, cached. rewrite Hcache.
unfold Dataset_variables_body, index_getitem. rewrite Hids.
reflexivity.
Qed.
End DatasetProperties.

Lemma Dataset_variables_TypeError_witness :
  let self := Dataset_new "sample.grib" "r" in
  Dataset._variables self = None
  ∧ index_values (file_Stream_index one_group_file (Dataset.stream self)
                    ["paramId"]) !! "paramId" = Some [VInt 1]
  ∧ Dataset_variables (file_Index_new one_group_file)
      (file_Stream_index one_group_file) sample_float_str self [] =
      (Raise TypeError, []).
Proof.
  intros self. split; [reflexivity|]. split; [reflexivity|].
  apply (Dataset_variables_TypeError (file_Index_new one_group_file)
           (file_Stream_index one_group_file) sample_float_str self []
           (VInt 1) []); reflexivity.
Defined.

(* ===================================================================== *)
(** ** More on the significance sniffer *)
(* ===================================================================== *)

(** X1. The significance sniffer never raises. Its result begins with the
    edition-independent keys that are present and non-null in the message,
    holds only keys that are present and non-null, and the log grows by
    exactly one warning when the message's grid type is no key of the
    catalog and not at all when it is. *)
Theorem sniff_significant_keys_outcome
    (message : gmap string pyval) (ei_keys : list string)
    (grid_type_map : gmap string (list string)) (log : list log_record) :
  ∃ keys log',
    sniff_significant_keys message ei_keys grid_type_map log = (Ok keys, log')
    ∧ filter (present_non_null message) ei_keys `prefix_of` keys
    ∧ Forall (present_non_null message) keys
    ∧ (((∃ grid_type grid_type_keys,
           message !! "gridType" = Some (VStr grid_type)
           ∧ grid_type_map !! grid_type = Some grid_type_keys)
        ∧ log' = log)
       ∨ ((∀ grid_type, message !! "gridType" = Some (VStr grid_type) →
                        grid_type_map !! grid_type = None)
          ∧ log' = log ++ [LogWarning "unknown gridType %r"
                             (message_get message "gridType" VNone)])).
Proof.
  rewrite sniff_significant_keys_cases.
  destruct (grid_type_map_get _ _) as [grid_type_keys|] eqn:Hget.
  - eexists _, _. split; [done|]. rewrite filter_app.
    split; [by apply prefix_app_r|].
    split; [rewrite <- filter_app; apply Forall_forall;
              by intros key [? _]%list_elem_of_filter|].
    left. split; [|done]. unfold message_get in Hget.
    destruct (message !! "gridType") as [[| | |g]|]; simpl in Hget; try done.
    by exists g, grid_type_keys.
  - eexists _, _. split; [done|]. split; [done|].
    split; [apply Forall_forall; by intros key [? _]%list_elem_of_filter|].
    right. split; [|done]. intros g Hg. unfold message_get in Hget.
    by rewrite Hg in Hget.
Qed.

Lemma GRID_TYPE_MAP_lookup (grid_type : string) (grid_type_keys : list string) :
  GRID_TYPE_MAP !! grid_type = Some grid_type_keys →
  (grid_type = "regular_ll" ∧ GRID_TYPE_MAP !! "regular_ll" = Some grid_type_keys)
  ∨ (grid_type = "regular_gg"
     ∧ GRID_TYPE_MAP !! "regular_gg" = Some grid_type_keys).
Proof.
  intros Hlookup. pose proof Hlookup as H. unfold GRID_TYPE_MAP in H.
  apply lookup_insert_Some in H as [[<- _]|[_ H]]; [by left|].
  apply lookup_singleton_Some in H as [<- _]. by right.
Qed.

(** X2. With the catalogs of the module, the significant keys of every
    message are free of duplicates: the edition-independent keys and the
    keys of either grid type are duplicate-free and share no key. *)
Theorem sniff_significant_keys_default_NoDup
    (message : gmap string pyval) (log : list log_record) :
  ∃ keys log',
    sniff_significant_keys message EDITION_INDEPENDENT_KEYS GRID_TYPE_MAP log
      = (Ok keys, log')
    ∧ NoDup keys.
Proof.
  rewrite sniff_significant_keys_cases.
  destruct (grid_type_map_get _ _) as [grid_type_keys|] eqn:Hget.
  - eexists _, _. split; [done|]. apply NoDup_filter.
    destruct (message_get message "gridType" VNone) as [| | |g];
      simpl in Hget; try done.
    apply GRID_TYPE_MAP_lookup in Hget as [[_ Hget]|[_ Hget]];
      vm_compute in Hget; injection Hget as <-;
      apply (bool_decide_unpack _); vm_compute; exact I.
  - eexists _, _. split; [done|]. apply NoDup_filter.
    apply (bool_decide_unpack _). vm_compute. exact I.
Qed.

(* ===================================================================== *)
(** ** More on the attribute sniffer *)
(* ===================================================================== *)

Lemma attrs_step_offence (significant_index : gmap string (list pyval))
    (attrs : pydict string pyval) (key : string) :
  sniff_variable_attrs_step significant_index attrs key =
  match attrs_offence significant_index key with
  | Some e => Raise e
  | None =>
      match significant_index !! key with
      | Some (v :: _) => Ok (dict_set attrs key v)
      | _ => Raise IndexError
      end
  end.
Proof.
  unfold sniff_variable_attrs_step, attrs_offence, index_getitem.
  by destruct (significant_index !! key) as [[|v [|w value]]|].
Qed.

Lemma attrs_loop_first_offence (significant_index : gmap string (list pyval))
    (keys : list string) (acc : pydict string pyval) :
  match first_offence significant_index keys with
  | Some e =>
      for_each (sniff_variable_attrs_step significant_index) acc keys = Raise e
  | None =>
      is_Ok (for_each (sniff_variable_attrs_step significant_index) acc keys)
  end.
Proof.
  unfold first_offence. revert acc.
  induction keys as [|key keys IH]; intros acc; simpl.
  - by exists acc.
  - rewrite attrs_step_offence.
    destruct (attrs_offence significant_index key) as [e|] eqn:Hoff; simpl;
      [done|].
    unfold attrs_offence in Hoff.
    destruct (significant_index !! key) as [[|v [|w value]]|]; try done.
    apply IH.
Qed.

(** X3. The attribute sniffer stops at the first tracked key, in iteration
    order, whose entry in the index is not a sequence of exactly one value,
    and raises for that key: [KeyError] when the index has no entry,
    [IndexError] when the sequence is empty, and the inconsistent-attribute
    error when it has more than one element. It returns a mapping exactly
    when there is no such key. *)
Theorem sniff_variable_attrs_first_offence
    (significant_index : gmap string (list pyval)) (attrs_keys : list string)
    (grid_type_map : gmap string (list string)) :
  significant_index !! "gridType" ≠ Some [] →
  match first_offence significant_index
          (tracked_keys significant_index attrs_keys grid_type_map) with
  | Some e =>
      sniff_variable_attrs significant_index attrs_keys grid_type_map = Raise e
  | None =>
      is_Ok (sniff_variable_attrs significant_index attrs_keys grid_type_map)
  end.
Proof.
  intros Hgt. rewrite sniff_variable_attrs_loop by done.
  apply attrs_loop_first_offence.
Qed.

Lemma sniff_variable_attrs_first_offence_witness :
  let index : gmap string (list pyval) :=
    {[ "centre" := [VStr "ecmf"]; "units" := [VStr "K"; VStr "K"];
       "name" := [] ]} in
  index !! "gridType" ≠ Some []
  ∧ sniff_variable_attrs index ["centre"; "units"; "name"; "level"] GRID_TYPE_MAP
    = Raise (NotImplementedError (MultipleValues "units" [VStr "K"; VStr "K"]))
  ∧ sniff_variable_attrs index ["centre"; "name"; "units"] GRID_TYPE_MAP
    = Raise IndexError
  ∧ sniff_variable_attrs index ["centre"; "level"; "units"] GRID_TYPE_MAP
    = Raise (KeyError "level").
Proof.
  intros index.
  assert (index !! "gridType" ≠ Some []) as Hgt by (by vm_compute).
  split; [exact Hgt|].
  pose proof (sniff_variable_attrs_first_offence index
                ["centre"; "units"; "name"; "level"] GRID_TYPE_MAP Hgt) as H1.
  pose proof (sniff_variable_attrs_first_offence index
                ["centre"; "name"; "units"] GRID_TYPE_MAP Hgt) as H2.
  pose proof (sniff_variable_attrs_first_offence index
                ["centre"; "level"; "units"] GRID_TYPE_MAP Hgt) as H3.
  split; [exact H1|]. split; [exact H2|exact H3].
Defined.

(** X4. When the index binds [gridType] to an empty sequence, the
    attribute sniffer raises [IndexError] while determining the grid type,
    whatever the attribute keys and the catalog, even with no key to
    process. *)
Theorem sniff_variable_attrs_empty_gridType
    (significant_index : gmap string (list pyval)) (attrs_keys : list string)
    (grid_type_map : gmap string (list string)) :
  significant_index !! "gridType" = Some [] →
  sniff_variable_attrs significant_index attrs_keys grid_type_map
    = Raise IndexError.
Proof.
  intros Hgt. unfold sniff_variable_attrs, index_get. by rewrite Hgt.
Qed.

Lemma sniff_variable_attrs_empty_gridType_witness :
  let index : gmap string (list pyval) :=
    {[ "gridType" := []; "centre" := [VStr "ecmf"] ]} in
  index !! "gridType" = Some []
  ∧ sniff_variable_attrs index [] ∅ = Raise IndexError
  ∧ sniff_variable_attrs index ["centre"] GRID_TYPE_MAP = Raise IndexError.
Proof.
  intros index. split; [reflexivity|].
  split; apply sniff_variable_attrs_empty_gridType; reflexivity.
Defined.

Lemma dict_keys_set_order {V} (d : pydict string V) (k : string) (v : V) :
  dict_keys (dict_set d k v) =
  if decide (k ∈ dict_keys d) then dict_keys d else dict_keys d ++ [k].
Proof.
  unfold dict_keys. induction d as [|[k0 v0] d IH].
  - destruct (decide (k ∈ ([] : pydict string V).*1)) as [Hin|Hin]; [|done].
    by apply elem_of_nil in Hin.
  - change (((k0, v0) :: d).*1) with (k0 :: d.*1).
    destruct (decide (k ∈ k0 :: d.*1)) as [Hin|Hin]; simpl;
      destruct (decide (k = k0)) as [->|Hne]; simpl; try done.
    + f_equal. etrans; [exact IH|].
      apply elem_of_cons in Hin as [?|Hin]; [done|].
      by destruct (decide (k ∈ d.*1)).
    + exfalso. apply Hin. by left.
    + f_equal. etrans; [exact IH|].
      destruct (decide (k ∈ d.*1)) as [Hin'|Hin']; [|done].
      exfalso. apply Hin. by right.
Qed.

Lemma foldl_first_occurrences_NoDup (seen keys : list string) :
  NoDup seen →
  NoDup (foldl (λ seen key, if decide (key ∈ seen) then seen else seen ++ [key])
               seen keys).
Proof.
  revert seen. induction keys as [|key keys IH]; intros seen Hseen; [done|].
  simpl. apply IH. case_decide as Hin; [done|].
  apply NoDup_app. split; [done|]. split; [|apply NoDup_singleton].
  intros x Hx ->%list_elem_of_singleton. done.
Qed.

Lemma foldl_first_occurrences_id (seen keys : list string) :
  NoDup (seen ++ keys) →
  foldl (λ seen key, if decide (key ∈ seen) then seen else seen ++ [key])
        seen keys = seen ++ keys.
Proof.
  revert seen. induction keys as [|key keys IH]; intros seen Hnd; simpl.
  - by rewrite app_nil_r.
  - case_decide as Hin.
    + apply NoDup_app in Hnd as (_ & Hdisj & _). exfalso.
      apply (Hdisj key Hin). by left.
    + rewrite IH; [by rewrite <- app_assoc|]. by rewrite <- app_assoc.
Qed.

Lemma attrs_loop_keys (significant_index : gmap string (list pyval))
    (keys : list string) (acc attrs : pydict string pyval) :
  for_each (sniff_variable_attrs_step significant_index) acc keys = Ok attrs →
  dict_keys attrs =
  foldl (λ seen key, if decide (key ∈ seen) then seen else seen ++ [key])
        (dict_keys acc) keys.
Proof.
  revert acc. induction keys as [|key keys IH]; intros acc.
  - simpl. by intros [= <-].
  - rewrite for_each_cons.
    destruct (sniff_variable_attrs_step _ acc key) as [acc'|e] eqn:Hstep;
      [|done].
    apply attrs_body_Ok in Hstep as (v & _ & ->).
    intros ->%IH. simpl. by rewrite dict_keys_set_order.
Qed.

(** X5. The mapping the attribute sniffer returns lists its keys in the
    order in which the tracked keys first occur (attribute keys, then the
    grid type's keys); its keys are pairwise different, and equal to the
    tracked-key list itself when that list has no repetition. *)
Theorem sniff_variable_attrs_key_order
    (significant_index : gmap string (list pyval)) (attrs_keys : list string)
    (grid_type_map : gmap string (list string))
    (attrs : pydict string pyval) :
  sniff_variable_attrs significant_index attrs_keys grid_type_map = Ok attrs →
  dict_keys attrs =
    first_occurrences (tracked_keys significant_index attrs_keys grid_type_map)
  ∧ NoDup (dict_keys attrs)
  ∧ (NoDup (tracked_keys significant_index attrs_keys grid_type_map) →
     dict_keys attrs = tracked_keys significant_index attrs_keys grid_type_map).
Proof.
  intros Hsniff.
  assert (significant_index !! "gridType" ≠ Some []) as Hgt.
  { intros Hnil. unfold sniff_variable_attrs, index_get in Hsniff.
    by rewrite Hnil in Hsniff. }
  rewrite sniff_variable_attrs_loop in Hsniff by done.
  apply attrs_loop_keys in Hsniff. unfold first_occurrences.
  split; [done|]. split.
  - rewrite Hsniff. apply foldl_first_occurrences_NoDup. constructor.
  - intros Hnd. rewrite Hsniff. by apply (foldl_first_occurrences_id []).
Qed.

Lemma sniff_variable_attrs_key_order_witness :
  let index : gmap string (list pyval) :=
    {[ "gridType" := [VStr "regular_ll"]; "Ni" := [VInt 2];
       "Nj" := [VInt 3]; "centre" := [VStr "ecmf"] ]} in
  let catalog : gmap string (list string) :=
    {[ "regular_ll" := ["Ni"; "Nj"; "centre"] ]} in
  sniff_variable_attrs index ["centre"; "Ni"; "centre"] catalog =
    Ok [("centre", VStr "ecmf"); ("Ni", VInt 2); ("Nj", VInt 3)]
  ∧ dict_keys [("centre", VStr "ecmf"); ("Ni", VInt 2); ("Nj", VInt 3)] =
    first_occurrences (tracked_keys index ["centre"; "Ni"; "centre"] catalog).
Proof.
  intros index catalog. split; [reflexivity|].
  apply (sniff_variable_attrs_key_order index ["centre"; "Ni"; "centre"]
           catalog). reflexivity.
Defined.

Lemma for_each_ext {A B} (f g : A → B → result A) (xs : list B) (acc : A) :
  (∀ acc x, x ∈ xs → f acc x = g acc x) →
  for_each f acc xs = for_each g acc xs.
Proof.
  revert acc. induction xs as [|x xs IH]; intros acc Hfg; [done|].
  rewrite !for_each_cons, Hfg by (by left).
  destruct (g acc x); [|done]. apply IH. intros acc' y Hy. apply Hfg. by right.
Qed.

(** X6. The attribute sniffer reads the index at [gridType] and at the
    tracked keys only: two indexes that agree there give the same outcome,
    whatever else they hold. *)
Theorem sniff_variable_attrs_reads_tracked_keys
    (index1 index2 : gmap string (list pyval)) (attrs_keys : list string)
    (grid_type_map : gmap string (list string)) :
  index1 !! "gridType" = index2 !! "gridType" →
  (∀ key, key ∈ tracked_keys index1 attrs_keys grid_type_map →
          index1 !! key = index2 !! key) →
  sniff_variable_attrs index1 attrs_keys grid_type_map =
  sniff_variable_attrs index2 attrs_keys grid_type_map.
Proof.
  intros Hgt Hagree.
  unfold sniff_variable_attrs, index_get. rewrite <- Hgt.
  unfold tracked_keys, index_grid_type in Hagree.
  destruct (index1 !! "gridType") as [[|grid_type value]|]; simpl; [done|..];
    apply for_each_ext; intros acc key Hkey;
    unfold sniff_variable_attrs_step, index_getitem;
    by rewrite (Hagree key Hkey).
Qed.

Lemma sniff_variable_attrs_reads_tracked_keys_witness :
  let index1 : gmap string (list pyval) :=
    {[ "centre" := [VStr "ecmf"]; "units" := [VStr "K"; VStr "degC"] ]} in
  let index2 : gmap string (list pyval) :=
    {[ "centre" := [VStr "ecmf"]; "level" := [] ]} in
  sniff_variable_attrs index1 ["centre"] GRID_TYPE_MAP =
  sniff_variable_attrs index2 ["centre"] GRID_TYPE_MAP.
Proof.
  intros index1 index2.
  apply sniff_variable_attrs_reads_tracked_keys; [reflexivity|].
  intros key Hkey. vm_compute in Hkey.
  apply elem_of_cons in Hkey as [->|Hkey]; [reflexivity|].
  by apply elem_of_nil in Hkey.
Defined.

(* ===================================================================== *)
(** ** More on the coordinate sniffer *)
(* ===================================================================== *)

Lemma raw_coordinates_loop_outcome (significant_index : gmap string (list pyval))
    (keys : list string) (acc : pydict string (list pyval)) :
  match first_missing significant_index keys with
  | Some key =>
      for_each
        (λ raw_coordinates key,
           value ← index_getitem significant_index key;
           Ok (dict_set raw_coordinates key value))
        acc keys = Raise (KeyError key)
  | None =>
      ∃ raw_coordinates,
        for_each
          (λ raw_coordinates key,
             value ← index_getitem significant_index key;
             Ok (dict_set raw_coordinates key value))
          acc keys = Ok raw_coordinates
        ∧ dict_keys raw_coordinates =
            foldl (λ seen key,
                     if decide (key ∈ seen) then seen else seen ++ [key])
                  (dict_keys acc) keys
        ∧ (∀ key, key ∈ keys →
             dict_get raw_coordinates key = significant_index !! key
             ∧ is_Some (significant_index !! key))
        ∧ (∀ key, key ∉ keys → dict_get raw_coordinates key = dict_get acc key)
  end.
Proof.
  set (body := λ (raw_coordinates : pydict string (list pyval)) key, _).
  assert (∀ d key, body d key =
            match significant_index !! key with
            | Some value => Ok (dict_set d key value)
            | None => Raise (KeyError key)
            end) as Hbody.
  { intros d key. unfold body, index_getitem.
    by destruct (significant_index !! key). }
  clearbody body. unfold first_missing.
  revert acc. induction keys as [|key keys IH]; intros acc.
  - simpl. exists acc. split; [done|]. split; [done|].
    split; [by intros key ?%elem_of_nil|done].
  - rewrite filter_cons, for_each_cons, Hbody.
    destruct (significant_index !! key) as [value|] eqn:E.
    + case_decide; [done|].
      specialize (IH (dict_set acc key value)).
      destruct (head (filter _ keys)) as [missing|]; [done|].
      destruct IH as (raw & Hraw & Hkeys & Hget & Hother).
      exists raw. split; [done|]. split; [|split].
      * rewrite Hkeys. simpl. by rewrite dict_keys_set_order.
      * intros k Hk.
        destruct (decide (k ∈ keys)) as [Hin|Hnotin]; [by apply Hget|].
        apply elem_of_cons in Hk as [->|Hk]; [|done].
        rewrite Hother, dict_get_set_eq by done. by rewrite E.
      * intros k [Hne Hk]%not_elem_of_cons.
        by rewrite Hother, dict_get_set_ne.
    + by case_decide.
Qed.

(** X7. For any list of coordinate keys, repeated keys included, the
    coordinate sniffer raises the [KeyError] of the first listed key for
    which the index has no entry; when there is none it returns a mapping
    whose keys are the listed keys in order of first occurrence, each
    bound to the sequence the index holds for it (an empty list of keys
    gives the empty mapping). *)
Theorem sniff_raw_coordinates_outcome
    (significant_index : gmap string (list pyval))
    (raw_coordinates_keys : list string)
    (grid_type_map : gmap string (list string)) :
  match first_missing significant_index raw_coordinates_keys with
  | Some key =>
      significant_index !! key = None
      ∧ sniff_raw_coordinates significant_index raw_coordinates_keys
          grid_type_map = Raise (KeyError key)
  | None =>
      ∃ raw_coordinates,
        sniff_raw_coordinates significant_index raw_coordinates_keys
          grid_type_map = Ok raw_coordinates
        ∧ dict_keys raw_coordinates = first_occurrences raw_coordinates_keys
        ∧ (∀ key, key ∈ raw_coordinates_keys →
             dict_get raw_coordinates key = significant_index !! key
             ∧ is_Some (significant_index !! key))
        ∧ (∀ key, key ∉ raw_coordinates_keys →
             dict_get raw_coordinates key = None)
  end.
Proof.
  pose proof (raw_coordinates_loop_outcome significant_index
                raw_coordinates_keys []) as Hloop.
  unfold sniff_raw_coordinates.
  destruct (first_missing _ _) as [key|] eqn:Hmissing; [|done].
  split; [|done]. unfold first_missing in Hmissing.
  apply head_Some_elem_of in Hmissing.
  by apply list_elem_of_filter in Hmissing as [? _].
Qed.

Example sniff_raw_coordinates_custom_keys :
  sniff_raw_coordinates
    {[ "level" := [VInt 500; VInt 850]; "number" := [VInt 0] ]}
    ["level"; "number"; "level"] GRID_TYPE_MAP
  = Ok [("level", [VInt 500; VInt 850]); ("number", [VInt 0])]
  ∧ sniff_raw_coordinates
      {[ "level" := [VInt 500; VInt 850]; "number" := [VInt 0] ]}
      ["level"; "step"; "date"] GRID_TYPE_MAP
    = Raise (KeyError "step")
  ∧ sniff_raw_coordinates ∅ [] GRID_TYPE_MAP = Ok [].
Proof. vm_compute. done. Qed.

(** X8. The coordinate sniffer reads the index at the listed keys only:
    two indexes that agree on them give the same outcome, whatever else
    they hold and whatever the catalogs. *)
Theorem sniff_raw_coordinates_reads_listed_keys
    (index1 index2 : gmap string (list pyval))
    (raw_coordinates_keys : list string)
    (grid_type_map1 grid_type_map2 : gmap string (list string)) :
  (∀ key, key ∈ raw_coordinates_keys → index1 !! key = index2 !! key) →
  sniff_raw_coordinates index1 raw_coordinates_keys grid_type_map1 =
  sniff_raw_coordinates index2 raw_coordinates_keys grid_type_map2.
Proof.
  intros Hagree. unfold sniff_raw_coordinates.
  apply for_each_ext. intros acc key Hkey.
  unfold index_getitem. by rewrite (Hagree key Hkey).
Qed.

Lemma sniff_raw_coordinates_reads_listed_keys_witness :
  sniff_raw_coordinates {[ "number" := [VInt 0]; "level" := [] ]}
    ["number"] GRID_TYPE_MAP =
  sniff_raw_coordinates {[ "number" := [VInt 0] ]} ["number"] ∅.
Proof.
  apply sniff_raw_coordinates_reads_listed_keys.
  intros key Hkey.
  apply elem_of_cons in Hkey as [->|Hkey]; [reflexivity|].
  by apply elem_of_nil in Hkey.
Defined.

(* ===================================================================== *)
(** ** Memoization *)
(* ===================================================================== *)

(** X9. [cached] memoizes: once a call of a cached method has returned,
    every later call on the object returns the same value and the same
    object, without running the method (whatever it would now do) and
    without logging. *)
Theorem cached_memoizes {S A : Type} (cache_get : S → option A)
    (cache_set : S → A → S) (method method' : S → M A)
    (self self1 : S) (a : A) (log log1 : list log_record) :
  (∀ s x, cache_get (cache_set s x) = Some x) →
  cached cache_get cache_set method self log = (Ok (a, self1), log1) →
  ∀ log2, cached cache_get cache_set method' self1 log2 = (Ok (a, self1), log2).
Proof.
  intros Hlens Hcall log2. unfold cached in *.
  destruct (cache_get self) as [a0|] eqn:Hget.
  - injection Hcall as <- <- <-. by rewrite Hget.
  - apply M_bind_Ok in Hcall as (a1 & log' & _ & Hret).
    injection Hret as <- <- <-. by rewrite Hlens.
Qed.

Lemma cached_memoizes_witness :
  let self := Dataset_new "sample.grib" "r" in
  ∃ self1,
    Dataset_variables (file_Index_new empty_file) (file_Stream_index empty_file)
      sample_float_str self [] = (Ok ([], self1), [])
    ∧ Dataset_variables (file_Index_new one_group_file)
        (file_Stream_index one_group_file) sample_float_str self1 []
      = (Ok ([], self1), []).
Proof.
  intros self. eexists. split; [reflexivity|].
  eapply (cached_memoizes Dataset._variables Dataset.set__variables
            (Dataset_variables_body (file_Index_new empty_file)
               (file_Stream_index empty_file) sample_float_str)
            (Dataset_variables_body (file_Index_new one_group_file)
               (file_Stream_index one_group_file) sample_float_str)
            self _ [] [] []).
  - reflexivity.
  - reflexivity.
Defined.

(* ===================================================================== *)
(** ** More on Dataset.variables *)
(* ===================================================================== *)

Section DatasetOutcome.
Variable Index_new : string → list string → Index.
Variable Stream_index : Stream.t → list string → Index.
Variable float_str : Z → string.

(** X10. On a dataset with nothing cached, [Dataset.variables] is decided
    by what the index over [paramId] holds for that key: no entry gives
    [KeyError]; an empty sequence gives the empty mapping, which is cached;
    any value gives [TypeError]. So the only mapping it ever computes is
    the empty one, and it logs nothing. *)
Theorem Dataset_variables_outcome (self : Dataset.t) (log : list log_record) :
  Dataset._variables self = None →
  Dataset_variables Index_new Stream_index float_str self log =
    match index_values (Stream_index (Dataset.stream self) ["paramId"])
            !! "paramId" with
    | None => (Raise (KeyError "paramId"), log)
    | Some [] => (Ok ([], Dataset.set__variables self []), log)
    | Some (_ :: _) => (Raise TypeError, log)
    end
  ∧ ∀ variables self' log',
      Dataset_variables Index_new Stream_index float_str self log
        = (Ok (variables, self'), log') →
      variables = [] ∧ Dataset._variables self' = Some [] ∧ log' = log.
Proof.
  intros Hcache.
  assert (Dataset_variables Index_new Stream_index float_str self log =
    match index_values (Stream_index (Dataset.stream self) ["paramId"])
            !! "paramId" with
    | None => (Raise (KeyError "paramId"), log)
    | Some [] => (Ok ([], Dataset.set__variables self []), log)
    | Some (_ :: _) => (Raise TypeError, log)
    end) as Houtcome.
  { unfold Dataset_variables, cached. rewrite Hcache.
    unfold Dataset_variables_body, index_getitem.
    by destruct (index_values _ !! "paramId") as [[|param_id param_ids]|]. }
  split; [done|]. intros variables self' log'. rewrite Houtcome.
  destruct (index_values _ !! "paramId") as [[|param_id param_ids]|];
    [|done..].
  by intros [= <- <- <-].
Qed.
End DatasetOutcome.

Lemma Dataset_variables_outcome_witness :
  let self := Dataset_new "sample.grib" "r" in
  Dataset._variables self = None
  ∧ Dataset_variables (file_Index_new empty_file) (file_Stream_index empty_file)
      sample_float_str self [] =
    (Ok ([], Dataset.set__variables self []), []).
Proof.
  intros self. split; [reflexivity|].
  destruct (Dataset_variables_outcome (file_Index_new empty_file)
              (file_Stream_index empty_file) sample_float_str self [] eq_refl)
    as [Houtcome _].
  exact Houtcome.
Defined.

(* ===================================================================== *)
(** ** The sample Variable *)
(* ===================================================================== *)

Lemma sample_Variable_new :
  Variable_new (file_Index_new one_group_file)
    (file_Stream_index one_group_file) sample_float_str sample_kwargs []
  = (Ok sample_Variable, []).
Proof. vm_compute. reflexivity. Qed.

(* ===================================================================== *)
(** ** More on Variable construction *)
(* ===================================================================== *)

Lemma M_bind_Raise {A B} (m : M A) (f : A → M B) log e log' :
  (m ≫= f) log = (Raise e, log') →
  m log = (Raise e, log')
  ∨ ∃ a log1, m log = (Ok a, log1) ∧ f a log1 = (Raise e, log').
Proof.
  unfold mbind, M_bind. destruct (m log) as [[a|e0] log1]; [eauto|].
  intros [= -> ->]. by left.
Qed.

Lemma lift_Raise {A} (r : result A) log e log' :
  lift r log = (Raise e, log') → r = Raise e ∧ log' = log.
Proof. unfold lift. by intros [= -> ->]. Qed.

Lemma sniff_variable_attrs_Raise (significant_index : gmap string (list pyval))
    (attrs_keys : list string) (grid_type_map : gmap string (list string))
    (e : exn) :
  sniff_variable_attrs significant_index attrs_keys grid_type_map = Raise e →
  sniffer_exn e.
Proof.
  unfold sniff_variable_attrs.
  destruct (getitem0 _) as [grid_type|e0] eqn:Hg; simpl.
  - generalize (attrs_keys ++
      default [] (grid_type_map_get grid_type_map grid_type)).
    generalize ([] : pydict string pyval).
    intros acc keys. revert acc.
    induction keys as [|key keys IH]; intros acc; [done|].
    rewrite for_each_cons.
    destruct (sniff_variable_attrs_step _ acc key) as [acc'|e'] eqn:Hstep.
    + apply IH.
    + intros [= ->].
      apply attrs_body_Raise in Hstep
        as [[_ ->]|[[_ ->]|(value & _ & _ & ->)]].
      * left. by eexists.
      * right. by left.
      * right. right. by eexists _, _.
  - unfold getitem0 in Hg. destruct (index_get _ _ _); [|done].
    injection Hg as <-. intros [= <-]. right. by left.
Qed.

Lemma sniff_raw_coordinates_Raise (significant_index : gmap string (list pyval))
    (keys : list string) (grid_type_map : gmap string (list string)) (e : exn) :
  sniff_raw_coordinates significant_index keys grid_type_map = Raise e →
  sniffer_exn e.
Proof.
  unfold sniff_raw_coordinates.
  generalize ([] : pydict string (list pyval)). intros acc. revert acc.
  induction keys as [|key keys IH]; intros acc; [done|].
  rewrite for_each_cons. unfold index_getitem at 1.
  destruct (significant_index !! key) as [value|]; simpl.
  - apply IH.
  - intros [= <-]. left. by eexists.
Qed.

Section Construction.
Variable Index_new : string → list string → Index.
Variable Stream_index : Stream.t → list string → Index.
Variable float_str : Z → string.

(** How a constructed [Variable] came about. *)
Lemma Variable_post_init_inv paramId stream name log self log' :
  Variable_post_init Index_new Stream_index float_str paramId stream name log
    = (Ok self, log') →
  ∃ leader,
    next (Index_select (Stream_index stream ["paramId"]) [("paramId", paramId)])
      = Ok leader
    ∧ Var.paramId self = paramId
    ∧ Var.stream self = stream
    ∧ Var.name self =
        (if decide (name = VNone)
         then message_get leader "shortName"
                (VStr ("paramId==" +:+ py_str float_str paramId))
         else name)
    ∧ sniff_significant_keys leader EDITION_INDEPENDENT_KEYS GRID_TYPE_MAP log
        = (Ok (Var.significant_keys self), log')
    ∧ Var.significant_index self =
        Index_new (Stream.path stream) (Var.significant_keys self)
    ∧ leader !! "numberOfDataPoints" = Some (Var.size self).
Proof.
  unfold Variable_post_init. case_decide; [by intros [? _]%lift_Ok|].
  intros (leader & log1 & [Hnext ->]%lift_Ok & H1)%M_bind_Ok.
  apply M_bind_Ok in H1 as (keys & log2 & Hkeys & H2).
  apply M_bind_Ok in H2 as (attrs & log3 & [_ ->]%lift_Ok & H3).
  apply M_bind_Ok in H3 as (coords & log4 & [_ ->]%lift_Ok & H4).
  apply M_bind_Ok in H4 as (size & log5 & [Hsize ->]%lift_Ok & H5).
  injection H5 as <- <-. exists leader. simpl.
  split; [done|]. split; [done|]. split; [done|]. split; [done|].
  split; [done|]. split; [done|].
  unfold message_getitem in Hsize.
  destruct (leader !! "numberOfDataPoints"); [|done]. by injection Hsize as ->.
Qed.

(** How a failed construction came about. *)
Lemma Variable_post_init_Raise paramId stream name log e log' :
  Variable_post_init Index_new Stream_index float_str paramId stream name log
    = (Raise e, log') →
  (1 < Index_len (Stream_index stream ["paramId"])
   ∧ e = NotImplementedError OnlyOneVariable)
  ∨ (¬ 1 < Index_len (Stream_index stream ["paramId"])
     ∧ Index_select (Stream_index stream ["paramId"]) [("paramId", paramId)]
         = []
     ∧ e = StopIteration)
  ∨ (¬ 1 < Index_len (Stream_index stream ["paramId"])
     ∧ Index_select (Stream_index stream ["paramId"]) [("paramId", paramId)]
         ≠ []
     ∧ sniffer_exn e).
Proof.
  unfold Variable_post_init. case_decide as Hlen.
  { intros [[= <-] _]%lift_Raise. by left. }
  intros [[Hnext _]%lift_Raise|(leader & log1 & [Hnext ->]%lift_Ok & H1)]
    %M_bind_Raise; right.
  { left. unfold next in Hnext. destruct (Index_select _ _); [|done].
    by injection Hnext as <-. }
  right. split; [done|].
  split; [intros Hnil; by rewrite Hnil in Hnext|].
  apply M_bind_Raise in H1 as [H1|(keys & log2 & _ & H2)].
  { rewrite sniff_significant_keys_cases in H1.
    by destruct (grid_type_map_get _ _). }
  apply M_bind_Raise in H2
    as [[Hattrs _]%lift_Raise|(attrs & log3 & _ & H3)].
  { by eapply sniff_variable_attrs_Raise. }
  apply M_bind_Raise in H3
    as [[Hcoords _]%lift_Raise|(coords & log4 & _ & H4)].
  { by eapply sniff_raw_coordinates_Raise. }
  apply M_bind_Raise in H4
    as [[Hsize _]%lift_Raise|(size & log5 & _ & H5)]; [|done].
  unfold message_getitem in Hsize.
  destruct (leader !! "numberOfDataPoints"); [done|].
  injection Hsize as <-. left. by eexists.
Qed.

(** X11. A call of [Variable] raises [TypeError] exactly when it is not
    well formed, that is when it passes a keyword that is no attribute of
    the class or omits [paramId] or [stream]; nothing is then logged.
    Construction itself never raises [TypeError]. *)
Theorem Variable_new_TypeError (kwargs : Variable_kwargs)
    (log : list log_record) :
  ((Variable_new Index_new Stream_index float_str kwargs log).1
     = Raise TypeError ↔ ¬ well_formed_call kwargs)
  ∧ (¬ well_formed_call kwargs →
     Variable_new Index_new Stream_index float_str kwargs log
       = (Raise TypeError, log)).
Proof.
  assert (¬ well_formed_call kwargs →
          Variable_new Index_new Stream_index float_str kwargs log
            = (Raise TypeError, log)) as Hill.
  { unfold well_formed_call, Variable_new. intros Hill.
    destruct (kw_other kwargs); [|done].
    destruct (kw_paramId kwargs) as [paramId|]; [|done].
    destruct (kw_stream kwargs) as [stream|]; [|done].
    exfalso. apply Hill. by repeat split. }
  split; [|done]. split; [|by intros ->%Hill].
  intros Hraise [Hother [[paramId HparamId] [stream Hstream]]].
  unfold Variable_new in Hraise. rewrite Hother, HparamId, Hstream in Hraise.
  destruct (Variable_post_init _ _ _ _ _ _ log) as [r log'] eqn:Hinit.
  simpl in Hraise. subst r.
  apply Variable_post_init_Raise in Hinit
    as [[_ ?]|[(_ & _ & ?)|(_ & _ & [[? ?]|[?|(? & ? & ?)]])]]; done.
Qed.

(** X12. Construction raises [StopIteration] exactly when the guard is
    passed and the selection on the given [paramId] yields no message; the
    exception of [next] is not caught. *)
Theorem Variable_post_init_StopIteration (paramId : pyval) (stream : Stream.t)
    (name : pyval) (log : list log_record) :
  (Variable_post_init Index_new Stream_index float_str paramId stream name
     log).1 = Raise StopIteration
  ↔ ¬ 1 < Index_len (Stream_index stream ["paramId"])
    ∧ Index_select (Stream_index stream ["paramId"]) [("paramId", paramId)]
        = [].
Proof.
  split.
  - destruct (Variable_post_init _ _ _ _ _ _ log) as [r log'] eqn:Hinit.
    simpl. intros ->.
    apply Variable_post_init_Raise in Hinit
      as [[_ ?]|[(? & ? & _)|(_ & _ & [[? ?]|[?|(? & ? & ?)]])]]; done.
  - intros [Hlen Hnil]. unfold Variable_post_init.
    case_decide; [done|]. by rewrite Hnil.
Qed.

(** X13. The name of a constructed [Variable] follows the fallback chain:
    the name passed when it is not [None]; otherwise what the leader, the
    first message selected on the [paramId], holds for [shortName], also
    when that is [None]; otherwise the text [paramId==] followed by the
    parameter id. Its [size] is the leader's [numberOfDataPoints]. *)
Theorem Variable_name_resolution (kwargs : Variable_kwargs)
    (log log' : list log_record) (self : Var.t) :
  Variable_new Index_new Stream_index float_str kwargs log = (Ok self, log') →
  ∃ paramId stream leader,
    kw_paramId kwargs = Some paramId ∧ kw_stream kwargs = Some stream
    ∧ Var.paramId self = paramId ∧ Var.stream self = stream
    ∧ head (Index_select (Stream_index stream ["paramId"])
              [("paramId", paramId)]) = Some leader
    ∧ Var.name self =
        match kw_name kwargs with
        | Some (VInt _ as name) | Some (VFloat _ as name)
        | Some (VStr _ as name) => name
        | Some VNone | None =>
            match leader !! "shortName" with
            | Some shortName => shortName
            | None => VStr ("paramId==" +:+ py_str float_str paramId)
            end
        end
    ∧ leader !! "numberOfDataPoints" = Some (Var.size self).
Proof.
  unfold Variable_new.
  destruct (kw_other kwargs); [|by intros [? _]%lift_Ok].
  destruct (kw_paramId kwargs) as [paramId|]; [|by intros [? _]%lift_Ok].
  destruct (kw_stream kwargs) as [stream|]; [|by intros [? _]%lift_Ok].
  intros (leader & Hnext & HparamId & Hstream & Hname & _ & _ & Hsize)
    %Variable_post_init_inv.
  exists paramId, stream, leader. repeat (split; [done|]).
  split.
  { unfold next in Hnext. destruct (Index_select _ _); [done|].
    by injection Hnext as ->. }
  split; [|done]. rewrite Hname. unfold message_get.
  by destruct (kw_name kwargs) as [[| | |]|].
Qed.
End Construction.

Lemma Variable_name_resolution_witness :
  Variable_new (file_Index_new one_group_file)
    (file_Stream_index one_group_file) sample_float_str sample_kwargs []
    = (Ok sample_Variable, [])
  ∧ Var.name sample_Variable = VStr "t"
  ∧ Var.size sample_Variable = VInt 4
  ∧ ∃ paramId stream leader,
      kw_paramId sample_kwargs = Some paramId
      ∧ head (Index_select (file_Stream_index one_group_file stream ["paramId"])
                [("paramId", paramId)]) = Some leader
      ∧ leader !! "numberOfDataPoints" = Some (Var.size sample_Variable).
Proof.
  split; [exact sample_Variable_new|].
  split; [reflexivity|]. split; [reflexivity|].
  destruct (Variable_name_resolution (file_Index_new one_group_file)
              (file_Stream_index one_group_file) sample_float_str
              sample_kwargs [] [] sample_Variable sample_Variable_new)
    as (paramId & stream & leader & HparamId & _ & _ & _ & Hleader & _ & Hsize).
  by exists paramId, stream, leader.
Defined.

Lemma VARIABLE_ATTRS_KEYS_NoDup : NoDup VARIABLE_ATTRS_KEYS.
Proof. apply (bool_decide_unpack _). vm_compute. exact I. Qed.

Lemma foldl_first_occurrences_prefix (seen keys : list string) :
  seen `prefix_of`
    foldl (λ seen key, if decide (key ∈ seen) then seen else seen ++ [key])
          seen keys.
Proof.
  revert seen. induction keys as [|key keys IH]; intros seen; [done|].
  simpl. case_decide; [apply IH|].
  etrans; [|apply IH]. by apply prefix_app_r.
Qed.

Section ConstructedVariable.
Variable Index_new : string → list string → Index.
Variable Stream_index : Stream.t → list string → Index.
Variable float_str : Z → string.

(** X14. When an index tracks no key but those it was built for, a
    [Variable] can only be constructed from a leader, the first message
    the selection on the given [paramId] yields, that carries, present and
    non-null, every attribute key and every coordinate key: all fifteen
    are among the significant keys of the constructed object, and every
    significant key is present and non-null in that leader. *)
Theorem Variable_requires_keys (kwargs : Variable_kwargs)
    (log log' : list log_record) (self : Var.t) :
  (∀ path keys, dom (index_values (Index_new path keys)) ⊆ list_to_set keys) →
  Variable_new Index_new Stream_index float_str kwargs log = (Ok self, log') →
  ∃ paramId stream leader,
    kw_paramId kwargs = Some paramId ∧ kw_stream kwargs = Some stream
    ∧ head (Index_select (Stream_index stream ["paramId"])
              [("paramId", paramId)]) = Some leader
    ∧ Forall (present_non_null leader) (Var.significant_keys self)
    ∧ Forall (λ key, key ∈ Var.significant_keys self
                     ∧ present_non_null leader key)
             (VARIABLE_ATTRS_KEYS ++ RAW_COORDINATES_KEYS).
Proof.
  intros Hdom. unfold Variable_new.
  destruct (kw_other kwargs); [|by intros [? _]%lift_Ok].
  destruct (kw_paramId kwargs) as [paramId|]; [|by intros [? _]%lift_Ok].
  destruct (kw_stream kwargs) as [stream|]; [|by intros [? _]%lift_Ok].
  intros Hinit.
  pose proof (Variable_post_init_Ok _ _ _ _ _ _ _ _ _ Hinit)
    as (Hattrs & Hcoords & _).
  apply Variable_post_init_inv in Hinit
    as (leader & Hnext & _ & _ & _ & Hkeys & Hindex & _).
  exists paramId, stream, leader.
  split; [done|]. split; [done|]. split.
  { unfold next in Hnext. destruct (Index_select _ _); [done|].
    by injection Hnext as ->. }
  assert (Forall (present_non_null leader) (Var.significant_keys self))
    as Hpresent.
  { rewrite sniff_significant_keys_cases in Hkeys.
    destruct (grid_type_map_get _ _); injection Hkeys as <- _;
      apply Forall_forall; by intros key [? _]%list_elem_of_filter. }
  split; [done|].
  assert (∀ key, is_Some (index_values (Var.significant_index self) !! key) →
                 key ∈ Var.significant_keys self) as Htracked.
  { intros key Hkey%elem_of_dom. rewrite Hindex in Hkey.
    apply Hdom in Hkey. by apply elem_of_list_to_set in Hkey. }
  rewrite Forall_forall in Hpresent.
  apply Forall_app. split; apply Forall_forall; intros key Hkey.
  - assert (key ∈ Var.significant_keys self) as Hin; [|by split; auto].
    apply Htracked.
    assert (index_values (Var.significant_index self) !! "gridType" ≠ Some [])
      as Hgt.
    { intros Hnil. unfold sniff_variable_attrs, index_get in Hattrs.
      by rewrite Hnil in Hattrs. }
    rewrite sniff_variable_attrs_loop in Hattrs by done.
    apply attrs_loop_Ok in Hattrs as (_ & Hget & _).
    destruct (Hget key) as (v & Hv & _); [|by rewrite Hv].
    unfold tracked_keys. apply elem_of_app. by left.
  - assert (key ∈ Var.significant_keys self) as Hin; [|by split; auto].
    apply Htracked. apply sniff_raw_coordinates_Ok in Hcoords.
    pose proof (Forall2_dict_get _ _ _ key Hcoords Hkey) as Hget.
    pose proof (Forall2_dict_keys _ _ _ Hcoords) as Hdk.
    rewrite <- Hget.
    assert (key ∈ dict_keys (Var.coordinates self)) as Hk by (by rewrite Hdk).
    clear -Hk. unfold dict_keys in Hk.
    induction (Var.coordinates self) as [|[k v] d IH]; simpl in *.
    + by apply elem_of_nil in Hk.
    + case_decide; [done|]. apply elem_of_cons in Hk as [?|Hk]; [done|].
      by apply IH.
Qed.

(** X15. [ncattrs] of a constructed [Variable] binds each of the ten
    attribute keys to the single value the significant index holds for it;
    its keys are pairwise different and begin with the ten attribute keys
    in their order. *)
Theorem ncattrs_attribute_keys (kwargs : Variable_kwargs)
    (log log' : list log_record) (self : Var.t) :
  Variable_new Index_new Stream_index float_str kwargs log = (Ok self, log') →
  Forall (λ key, ∃ v, dict_get (ncattrs self) key = Some v
                      ∧ index_values (Var.significant_index self) !! key
                          = Some [v])
         VARIABLE_ATTRS_KEYS
  ∧ VARIABLE_ATTRS_KEYS `prefix_of` dict_keys (ncattrs self)
  ∧ NoDup (dict_keys (ncattrs self)).
Proof.
  intros (paramId & stream & name & Hinit)%Variable_new_Ok.
  apply Variable_post_init_Ok in Hinit as (Hattrs & _).
  unfold ncattrs, dict_copy.
  assert (index_values (Var.significant_index self) !! "gridType" ≠ Some [])
    as Hgt.
  { intros Hnil. unfold sniff_variable_attrs, index_get in Hattrs.
    by rewrite Hnil in Hattrs. }
  rewrite sniff_variable_attrs_loop in Hattrs by done.
  pose proof (attrs_loop_keys _ _ _ _ Hattrs) as Hkeys.
  change (dict_keys ([] : pydict string pyval)) with ([] : list string)
    in Hkeys.
  apply attrs_loop_Ok in Hattrs as (_ & Hget & _).
  split; [|split].
  - apply Forall_forall. intros key Hkey.
    destruct (Hget key) as (v & Hv & Hd); [|by exists v].
    unfold tracked_keys. apply elem_of_app. by left.
  - rewrite Hkeys. unfold tracked_keys. rewrite foldl_app.
    rewrite (foldl_first_occurrences_id [] VARIABLE_ATTRS_KEYS)
      by apply VARIABLE_ATTRS_KEYS_NoDup.
    apply foldl_first_occurrences_prefix.
  - rewrite Hkeys. apply foldl_first_occurrences_NoDup. constructor.
Qed.

(** X16. A constructed [Variable] has as many dimensions as its shape has
    entries, five at most; each dimension has length 2 or more, so the
    array [build_array] makes holds the product of the shape in elements,
    which is at least [2 ^ ndim] and never zero. *)
Theorem Variable_ndim_size (kwargs : Variable_kwargs)
    (log log' : list log_record) (self : Var.t) :
  Variable_new Index_new Stream_index float_str kwargs log = (Ok self, log') →
  Var.ndim self = length (Var.shape self)
  ∧ Var.ndim self ≤ 5
  ∧ length (nd_data (full_array self)) = foldr Nat.mul 1 (Var.shape self)
  ∧ 2 ^ Var.ndim self ≤ length (nd_data (full_array self)).
Proof.
  intros (paramId & stream & name & Hinit)%Variable_new_Ok.
  apply Variable_post_init_Ok in Hinit
    as (_ & Hcoords & Hdims & Hndim & Hshape & _ & _).
  apply sniff_raw_coordinates_Ok in Hcoords.
  pose proof (Forall2_length _ _ _ Hcoords) as Hlen. simpl in Hlen.
  pose proof (Forall2_dict_keys _ _ _ Hcoords) as Hkeys.
  destruct (filter_items_values (Var.coordinates self)
              (coordinate (Var.coordinates self))) as [Hitems Hvalues].
  { intros k v Hin. unfold coordinate.
    rewrite (dict_get_elem_of _ k v); [done| |done].
    rewrite Hkeys. apply RAW_COORDINATES_KEYS_NoDup. }
  assert (Var.ndim self = length (Var.shape self)) as Hnd.
  { by rewrite Hndim, Hdims, Hshape, Hitems, Hvalues, length_fmap. }
  assert (Forall (λ n, 2 ≤ n) (Var.shape self)) as Hge.
  { rewrite Hshape, Forall_fmap. apply Forall_forall.
    by intros coord [? _]%list_elem_of_filter. }
  split; [done|]. split.
  { rewrite Hndim, Hdims, length_fmap.
    etrans; [apply length_filter|]. unfold dict_items. lia. }
  split; [apply np_full_data|].
  rewrite Hnd. unfold full_array. simpl. rewrite length_replicate.
  clear -Hge. induction Hge as [|n shape Hn _ IH]; simpl; [done|].
  rewrite Nat.add_0_r. nia.
Qed.
End ConstructedVariable.

Lemma Variable_requires_keys_witness :
  (∀ path keys,
     dom (index_values (file_Index_new one_group_file path keys))
       ⊆ list_to_set keys)
  ∧ Variable_new (file_Index_new one_group_file)
      (file_Stream_index one_group_file) sample_float_str sample_kwargs []
      = (Ok sample_Variable, [])
  ∧ ∃ leader,
      head (Index_select
              (file_Stream_index one_group_file sample_stream ["paramId"])
              [("paramId", VInt 1)]) = Some leader
      ∧ Forall (λ key, key ∈ Var.significant_keys sample_Variable
                       ∧ present_non_null leader key)
               (VARIABLE_ATTRS_KEYS ++ RAW_COORDINATES_KEYS).
Proof.
  assert (∀ path keys,
            dom (index_values (file_Index_new one_group_file path keys))
              ⊆ list_to_set keys) as Hdom.
  { intros path keys. unfold file_Index_new. by rewrite build_index_dom. }
  split; [exact Hdom|]. split; [exact sample_Variable_new|].
  destruct (Variable_requires_keys (file_Index_new one_group_file)
              (file_Stream_index one_group_file) sample_float_str
              sample_kwargs [] [] sample_Variable Hdom sample_Variable_new)
    as (paramId & stream & leader & HparamId & Hstream & Hleader & _ & Hkeys).
  injection HparamId as <-. injection Hstream as <-.
  by exists leader.
Defined.

Lemma ncattrs_attribute_keys_witness :
  Variable_new (file_Index_new one_group_file)
    (file_Stream_index one_group_file) sample_float_str sample_kwargs []
    = (Ok sample_Variable, [])
  ∧ VARIABLE_ATTRS_KEYS `prefix_of` dict_keys (ncattrs sample_Variable)
  ∧ NoDup (dict_keys (ncattrs sample_Variable)).
Proof.
  split; [exact sample_Variable_new|].
  by destruct (ncattrs_attribute_keys (file_Index_new one_group_file)
                 (file_Stream_index one_group_file) sample_float_str
                 sample_kwargs [] [] sample_Variable sample_Variable_new)
    as (_ & Hprefix & Hnd).
Defined.

Lemma Variable_ndim_size_witness :
  Variable_new (file_Index_new one_group_file)
    (file_Stream_index one_group_file) sample_float_str sample_kwargs []
    = (Ok sample_Variable, [])
  ∧ Var.shape sample_Variable = [3]
  ∧ Var.ndim sample_Variable = length (Var.shape sample_Variable)
  ∧ 2 ^ Var.ndim sample_Variable
      ≤ length (nd_data (full_array sample_Variable)).
Proof.
  split; [exact sample_Variable_new|]. split; [reflexivity|].
  by destruct (Variable_ndim_size (file_Index_new one_group_file)
                 (file_Stream_index one_group_file) sample_float_str
                 sample_kwargs [] [] sample_Variable sample_Variable_new)
    as (Hndim & _ & _ & Hsize).
Defined.

(* ===================================================================== *)
(** ** Indexing *)
(* ===================================================================== *)

Section GetitemProperties.
Variable Index_new : string → list string → Index.
Variable Stream_index : Stream.t → list string → Index.
Variable float_str : Z → string.
Context {Item Elem : Type}.
Variable ndarray_getitem : ndarray → Item → result Elem.

(** X17. Indexing a constructed [Variable], at any moment of its life
    (after any calls of [build_array] and earlier indexings, which keep the
    object consistent with the one constructed), gives what indexing the
    all-[NaN] array of the [Variable]'s shape gives, be it an element or
    an exception; it logs nothing, leaves the array cached and the object
    consistent. No message is read. *)
Theorem Variable_getitem_full_array (kwargs : Variable_kwargs)
    (log0 log0' : list log_record) (self0 : Var.t) :
  Variable_new Index_new Stream_index float_str kwargs log0
    = (Ok self0, log0') →
  cache_consistent self0 self0
  ∧ ∀ (self : Var.t) (item : Item) (log : list log_record),
      cache_consistent self0 self →
      ∃ self',
        Variable_getitem ndarray_getitem self item log =
          (ndarray_getitem (np_full (Var.shape self0) NaN float32) item,
           self', log)
        ∧ Var._build_array self' =
            Some (np_full (Var.shape self0) NaN float32)
        ∧ cache_consistent self0 self'.
Proof.
  intros (paramId & stream & name & Hinit)%Variable_new_Ok.
  apply Variable_post_init_Ok in Hinit as (_ & _ & _ & _ & _ & Hdtype & Hcache).
  split; [split; [done|]; split; [done|]; by left|].
  intros self item log Hself.
  destruct (build_array_call self0 self log Hself) as (self' & Hcall & Hself').
  exists self'. unfold Variable_getitem. rewrite Hcall.
  unfold full_array in *. rewrite Hdtype in *.
  split; [done|]. split; [|done].
  destruct Hself as (Hshape & Hdt & [Hnone|Hsome]).
  - assert (build_array self log =
              (Ok (np_full (Var.shape self) NaN (Var.dtype self),
                   Var.set__build_array self
                     (np_full (Var.shape self) NaN (Var.dtype self))), log))
      as Hb.
    { unfold build_array, cached. by rewrite Hnone. }
    rewrite Hcall in Hb.
    assert (self' = Var.set__build_array self
                      (np_full (Var.shape self) NaN (Var.dtype self)))
      as -> by congruence.
    change (Some (np_full (Var.shape self) NaN (Var.dtype self)) =
            Some (np_full (Var.shape self0) NaN float32)).
    congruence.
  - assert (build_array self log =
              (Ok (np_full (Var.shape self0) NaN float32, self), log)) as Hb.
    { unfold build_array, cached. rewrite Hsome. unfold full_array.
      by rewrite Hdtype. }
    rewrite Hcall in Hb. assert (self' = self) as -> by congruence.
    rewrite Hsome. unfold full_array. by rewrite Hdtype.
Qed.
End GetitemProperties.

Lemma Variable_getitem_full_array_witness :
  Variable_new (file_Index_new one_group_file)
    (file_Stream_index one_group_file) sample_float_str sample_kwargs []
    = (Ok sample_Variable, [])
  ∧ ∀ item : nat, ∃ self',
      Variable_getitem (λ a i, match nd_data a !! i with
                               | Some x => Ok x
                               | None => Raise IndexError
                               end) sample_Variable item []
      = (match nd_data (np_full (Var.shape sample_Variable) NaN float32)
                 !! item with
         | Some x => Ok x
         | None => Raise IndexError
         end, self', []).
Proof.
  split; [exact sample_Variable_new|]. intros item.
  destruct (Variable_getitem_full_array (file_Index_new one_group_file)
              (file_Stream_index one_group_file) sample_float_str
              (λ a i, match nd_data a !! i with
                      | Some x => Ok x
                      | None => Raise IndexError
                      end)
              sample_kwargs [] [] sample_Variable sample_Variable_new)
    as [Hself Hget].
  destruct (Hget sample_Variable item [] Hself) as (self' & Hcall & _).
  by exists self'.
Defined.
